(** * autorandr_launcher: the event loop, its debounce filter and the launcher

    A shallow embedding of [contrib/autorandr_launcher/autorandr_launcher.c].

    The program is a single-threaded loop over blocking calls.  Everything it
    obtains from outside (the results of [getopt_long], [daemon], [xcb_connect],
    [time], [xcb_wait_for_event], [fork], [execve]) is an input of the model,
    gathered in the record [world]; everything it does is recorded, in program
    order, in a list of [action]s.

    Conventions.
    - [int], [xcb_timestamp_t] (an unsigned 32-bit integer) and [time_t] (a
      signed count of whole seconds) are modelled in [Z].  The program only
      compares timestamps, and its single addition, [last_time + 1], is on
      values returned by [time], far from the bounds of [time_t]; no
      wrap-around is therefore written out.
    - A run is driven by a finite list of loop inputs.  When the list is
      exhausted the process is blocked in [xcb_wait_for_event].
    - The launched tool is taken to terminate: [waitpid] returns.
    - [free] is not observable and is left out. *)

From Stdlib Require Import ZArith List String Ascii Bool Lia.
From Equations Require Import Equations.
Import ListNotations.
Open Scope Z_scope.

(** ** Constants of the platform headers *)

(** [<xcb/randr.h>]: [xcb_randr_notify_mask_t]. *)
Definition XCB_RANDR_NOTIFY_MASK_SCREEN_CHANGE : Z := 1.

(** [<signal.h>]: the signals and dispositions the program names. *)
Inductive signal_t := SIGINT | SIGTERM | SIGQUIT | SIGHUP.
Inductive sighandler_t := SIG_DFL | SIG_IGN | sigterm_handler.

(** ** Events *)

(** [xcb_generic_event_t], as far as the program reads it: the first byte, and
    the 32-bit word that [xcb_randr_screen_change_notify_event_t] calls
    [timestamp] (the program reads it through a pointer cast). *)
Record xcb_generic_event_t := {
  response_type : Z;   (* uint8_t *)
  timestamp : Z        (* xcb_timestamp_t = uint32_t *)
}.

(** The type code of an event: the first byte without its high bit, which
    the server sets on events sent by a client through SendEvent. *)
Definition event_code (evt : xcb_generic_event_t) : Z :=
  Z.land (response_type evt) 127.

(** [<xcb/randr.h>]: the code of a screen-change notification, counted from
    the first event code the server has given the RandR extension. *)
Definition XCB_RANDR_SCREEN_CHANGE_NOTIFY : Z := 0.

(** An event is a screen-change notification of RandR when its type code is
    that one.  [first_event] is the first event code of the extension, which
    the server chooses among the codes 64 to 127 left to extensions; the
    program never asks for it. *)
Definition is_screen_change_notify (first_event : Z)
  (evt : xcb_generic_event_t) : bool :=
  event_code evt =? first_event + XCB_RANDR_SCREEN_CHANGE_NOTIFY.

(** ** The launcher: [ar_launch] *)

(** The system calls of [ar_launch] below [fork]. *)
Inductive proc_action :=
| Execve (path : string) (args : list string) (envp : list string)
| Waitpid (pid : Z) (wstatus : Z) (options : Z).

(** How the code of [ar_launch] ends in a process: it returns to its caller,
    it calls [exit], or [execve] has replaced the process image by the tool,
    which later terminates with some status. *)
Inductive launch_end :=
| Returns (v : Z)
| Exits (code : Z)
| Replaced (tool_status : Z).

(** The outcome of [execve]: it fails and returns, or the tool runs. *)
Inductive execve_outcome := Exec_failed | Exec_replaced (tool_status : Z).

(** What [fork] returns in the launcher: -1, or the pid of the child. *)
Inductive fork_result := Fork_failed | Fork_pid (p : positive).

Definition pid_of (r : fork_result) : Z :=
  match r with
  | Fork_failed => -1
  | Fork_pid p => Z.pos p
  end.

(** Inputs of one call of [ar_launch]. *)
Record launch_world := {
  fork_ret : fork_result;
  exec : execve_outcome
}.

(** [static char *argv[]] of [ar_launch], without its NULL terminator. *)
Definition argv : list string :=
  ["/usr/bin/autorandr"%string; "--change"%string; "--default"%string;
   "default"%string].

Definition LF : string := String "010"%char EmptyString.
Definition TAB : string := String "009"%char EmptyString.

(** The texts handed to [ar_log]. *)
Definition msg_connected : string := ("Connected to server" ++ LF)%string.
Definition msg_waiting : string := ("Waiting for event" ++ LF)%string.
Definition msg_launch : string := ("Launch autorandr!" ++ LF)%string.

Section Globals.

(** [static int VERBOSE] and [extern char **environ]. *)
Variable VERBOSE : Z.
Variable environ : list string.

(** [ar_log]: the text written on standard output. *)
Definition ar_log (text : string) : list string :=
  if VERBOSE =? 0 then [] else [text].

(** The body of [ar_launch] below the call of [fork], as run by a process in
    which [fork] returned [pid]: 0 in the child, anything else in the
    launcher. *)
Definition ar_launch_body (pid : Z) (e : execve_outcome)
  : list proc_action * launch_end :=
  if pid =? 0 then
    ([Execve (hd EmptyString argv) argv environ],
     match e with
     | Exec_failed => Exits 127
     | Exec_replaced s => Replaced s
     end)
  else ([Waitpid pid 0 0], Returns 0).

(** One call of [ar_launch], seen from the launcher: what [fork] returned,
    the run of the child (there is one only if [fork] succeeded) and the run
    of the launcher itself.  [waitpid] is called with options 0: it returns
    once the child has terminated. *)
Record launch_run := {
  lr_fork : fork_result;
  lr_child : option (list proc_action * launch_end);
  lr_parent : list proc_action * launch_end
}.

Definition ar_launch (w : launch_world) : launch_run :=
  {| lr_fork := fork_ret w;
     lr_child :=
       match fork_ret w with
       | Fork_failed => None
       | Fork_pid _ => Some (ar_launch_body 0 (exec w))
       end;
     lr_parent := ar_launch_body (pid_of (fork_ret w)) (exec w) |}.

(** ** The debounce filter and the event loop *)

(** The two variables of [main] that the loop updates. *)
Record debounce_state := {
  last_timestamp : Z;   (* xcb_timestamp_t *)
  last_time : Z         (* time_t *)
}.

(** What [main] does, in program order. *)
Inductive action :=
| Stdout (text : string)
| Stderr (text : string)
| Sigaction (sig : signal_t) (handler : sighandler_t)
| Daemon (nochdir noclose : Z)
| Xcb_connect
| Xcb_randr_select_input (root : Z) (mask : Z)
| Xcb_flush
| Xcb_wait_for_event (ret : option xcb_generic_event_t)
| Call_ar_launch (run : launch_run)
| Store_last_time (v : Z)
| Store_last_timestamp (v : Z).

(** The condition of the inner [if]. *)
Definition trigger (st : debounce_state) (T evt_time : Z) : bool :=
  (last_timestamp st <? T) && (last_time st + 1 <? evt_time).

(** The inner [if] statement: the filter proper. *)
Definition debounce (st : debounce_state) (T evt_time : Z) (lw : launch_world)
  : list action * debounce_state :=
  if trigger st T evt_time then
    (map Stdout (ar_log msg_launch)
       ++ [Call_ar_launch (ar_launch lw);
           Store_last_time evt_time;
           Store_last_timestamp T],
     {| last_timestamp := T; last_time := evt_time |})
  else ([], st).

(** The test on [response_type]. *)
Definition screen_change_flag (evt : xcb_generic_event_t) : bool :=
  negb (Z.land (response_type evt) XCB_RANDR_NOTIFY_MASK_SCREEN_CHANGE =? 0).

(** The outer [if] statement of the loop body.  [clock] is what [time]
    returns when it is called. *)
Definition dispatch (st : debounce_state) (evt : xcb_generic_event_t)
  (clock : Z) (lw : launch_world) : list action * debounce_state :=
  if screen_change_flag evt
  then debounce st (timestamp evt) clock lw
  else ([], st).

(** The inputs of one iteration: what [xcb_wait_for_event] returns ([None]
    for NULL), and what [time] and [ar_launch] meet if they are called. *)
Record arrival := {
  wait_result : option xcb_generic_event_t;
  clock : Z;
  launch : launch_world
}.

(** How a run over a finite list of inputs stands at its end. *)
Inductive loop_end :=
| Blocked   (* waiting in xcb_wait_for_event *)
| Closed.   (* left by break *)

Fixpoint event_loop (st : debounce_state) (inputs : list arrival)
  : list action * debounce_state * loop_end :=
  match inputs with
  | [] => (map Stdout (ar_log msg_waiting), st, Blocked)
  | a :: rest =>
      let waiting :=
        map Stdout (ar_log msg_waiting) ++ [Xcb_wait_for_event (wait_result a)]
      in
      match wait_result a with
      | None => (waiting, st, Closed)
      | Some evt =>
          let '(t1, st1) := dispatch st evt (clock a) (launch a) in
          let '(t2, st2, e) := event_loop st1 rest in
          (waiting ++ t1 ++ t2, st2, e)
      end
  end.

End Globals.

(** ** Command line, daemon and [main] *)

(** The four [int] variables the options set. *)
Inductive flag_var := Var_help | Var_daemonize | Var_version | Var_VERBOSE.

Record options := {
  help : Z;
  version : Z;
  daemonize : Z;
  VERBOSE : Z
}.

Definition store_flag (v : flag_var) (x : Z) (o : options) : options :=
  match v with
  | Var_help =>
      {| help := x; version := version o; daemonize := daemonize o;
         VERBOSE := VERBOSE o |}
  | Var_daemonize =>
      {| help := help o; version := version o; daemonize := x;
         VERBOSE := VERBOSE o |}
  | Var_version =>
      {| help := help o; version := x; daemonize := daemonize o;
         VERBOSE := VERBOSE o |}
  | Var_VERBOSE =>
      {| help := help o; version := version o; daemonize := daemonize o;
         VERBOSE := x |}
  end.

(** [struct option]; [has_arg] is [no_argument] in every row. *)
Record option_t := {
  name : string;
  flag : flag_var;
  val : Z
}.

Definition long_options : list option_t :=
  [ {| name := "help"; flag := Var_help; val := 1 |};
    {| name := "daemonize"; flag := Var_daemonize; val := 1 |};
    {| name := "version"; flag := Var_version; val := 1 |};
    {| name := "verbose"; flag := Var_VERBOSE; val := 1 |} ].

(** One result of [getopt_long] other than -1: a character it returns
    without a word, or the row of [long_options] it matched, in which case
    it has stored [val] through [flag] and returns 0, or an argument it does
    not accept: [opterr] is never cleared and [short_options] does not start
    with a colon, so it then writes a diagnostic on standard error and
    returns '?'. *)
Inductive getopt_result :=
| Got_short (ch : ascii)
| Got_long (index : nat)
| Got_error (diagnostic : string).

(** One iteration of the option loop: [getopt_long], then the [switch]. *)
Definition option_step (o : options) (r : getopt_result) : options :=
  match r with
  | Got_long i =>
      match nth_error long_options i with
      | Some row => store_flag (flag row) (val row) o
      | None => o
      end
  | Got_short ch =>
      if Ascii.eqb ch "h" then store_flag Var_help 1 o
      else if Ascii.eqb ch "d" then store_flag Var_daemonize 1 o
      else o
  | Got_error _ => o
  end.

Definition parse_options (rs : list getopt_result) : options :=
  fold_left option_step rs
    {| help := 0; version := 0; daemonize := 0; VERBOSE := 0 |}.

Definition help_str : string :=
  ("Usage: autorandr_launcher [OPTION]" ++ LF
   ++ LF
   ++ "Listens to X server screen change events and launches autorandr after an event occurs."
   ++ LF
   ++ LF
   ++ TAB ++ "-h,--help" ++ TAB ++ TAB ++ TAB ++ "Display this help and exit" ++ LF
   ++ TAB ++ "-d, --daemonize" ++ TAB ++ TAB ++ TAB ++ "Daemonize program" ++ LF
   ++ TAB ++ "--verbose" ++ TAB ++ TAB ++ TAB
   ++ "Output debugging information (prevents daemonizing)" ++ LF
   ++ TAB ++ "--version" ++ TAB ++ TAB ++ TAB ++ "Display version and exit" ++ LF
  )%string.

Definition version_str : string := ("v.5" ++ LF)%string.

Definition msg_connection_error : string := ("Connection error!" ++ LF)%string.

(** The attributes of the process that [daemon] touches. *)
Inductive stdio_target := Inherited | Dev_null.

Record process := {
  cwd : string;
  stdio : stdio_target;
  detached : bool
}.

(** The C library's [daemon], after its declaration in [<unistd.h>]: put the
    program in the background, dissociated from the controlling terminal; if
    [nochdir] is zero, change the working directory to "/"; if [noclose] is
    zero, redirect standard input, output and error to /dev/null.  [ok] tells
    whether the call succeeds; the result is the process and the value
    returned. *)
Definition daemon (nochdir noclose : Z) (ok : bool) (p : process)
  : process * Z :=
  if ok then
    ({| cwd := if nochdir =? 0 then "/"%string else cwd p;
        stdio := if noclose =? 0 then Dev_null else stdio p;
        detached := true |}, 0)
  else (p, -1).

(** Everything a run of [main] takes from outside. *)
Record world := {
  environ : list string;
  getopt_results : list getopt_result;   (* up to the -1 that ends the loop *)
  proc0 : process;                       (* the process when main starts *)
  daemon_ok : bool;
  conn_error : Z;                        (* xcb_connection_has_error(c) *)
  root : Z;                              (* default_screen->root *)
  start_time : Z;                        (* time(NULL) before the loop *)
  arrivals : list arrival
}.

Inductive exit_status :=
| Running              (* blocked in xcb_wait_for_event *)
| Exited (code : Z).   (* exit(code), or the end of main with code 0 *)

Record outcome := {
  out_trace : list action;
  out_proc : process;
  out_state : option debounce_state;   (* the loop's variables, once declared *)
  out_status : exit_status
}.

(** The [if] statement under the comment "Daemonize": the process before
    and after it, and what it does.  The value [daemon] returns is not
    looked at. *)
Definition daemonize_block (o : options) (ok : bool) (p : process)
  : list action * process :=
  if (daemonize o =? 1) && negb (VERBOSE o =? 1) then
    ([Sigaction SIGINT sigterm_handler;
      Sigaction SIGTERM sigterm_handler;
      Sigaction SIGQUIT sigterm_handler;
      Sigaction SIGHUP SIG_IGN;
      Daemon 0 0],
     fst (daemon 0 0 ok p))
  else ([], p).

(** What [getopt_long] writes during the option loop. *)
Definition getopt_diagnostics (rs : list getopt_result) : list action :=
  flat_map
    (fun r =>
       match r with
       | Got_error text => [Stderr text]
       | _ => []
       end)
    rs.

Definition main (w : world) : outcome :=
  let o := parse_options (getopt_results w) in
  let t_options := getopt_diagnostics (getopt_results w) in
  if help o =? 1 then
    {| out_trace := t_options ++ [Stdout help_str]; out_proc := proc0 w;
       out_state := None; out_status := Exited 0 |}
  else if version o =? 1 then
    {| out_trace := t_options ++ [Stdout version_str]; out_proc := proc0 w;
       out_state := None; out_status := Exited 0 |}
  else
    let '(t_daemon, p) := daemonize_block o (daemon_ok w) (proc0 w) in
    if conn_error w =? 0 then
      let '(t_loop, st, e) :=
        event_loop (VERBOSE o) (environ w)
          {| last_timestamp := 0; last_time := start_time w |} (arrivals w) in
      {| out_trace :=
           t_options ++ t_daemon ++ [Xcb_connect]
             ++ map Stdout (ar_log (VERBOSE o) msg_connected)
             ++ [Xcb_randr_select_input (root w)
                   XCB_RANDR_NOTIFY_MASK_SCREEN_CHANGE;
                 Xcb_flush]
             ++ t_loop;
         out_proc := p;
         out_state := Some st;
         out_status := match e with Blocked => Running | Closed => Exited 0 end
      |}
    else
      {| out_trace :=
           t_options ++ t_daemon
             ++ [Xcb_connect; Stderr msg_connection_error];
         out_proc := p;
         out_state := None;
         out_status := Exited (conn_error w) |}.

(** ** Observations on traces and runs *)

Definition is_launch (a : action) : bool :=
  match a with
  | Call_ar_launch _ => true
  | _ => false
  end.

(** The number of calls of [ar_launch] in a trace. *)
Definition invocations (tr : list action) : nat :=
  List.length (filter is_launch tr).

Definition is_received (a : action) : bool :=
  match a with
  | Xcb_wait_for_event (Some _) => true
  | _ => false
  end.

(** The number of events [xcb_wait_for_event] has delivered in a trace. *)
Definition received (tr : list action) : nat :=
  List.length (filter is_received tr).

Definition is_connect (a : action) : bool :=
  match a with
  | Xcb_connect => true
  | _ => false
  end.

Definition is_daemon_call (a : action) : bool :=
  match a with
  | Daemon _ _ => true
  | _ => false
  end.

(** What the program does besides waiting and logging: the launches and
    the stores into the loop's variables. *)
Definition is_effect (a : action) : bool :=
  match a with
  | Call_ar_launch _ | Store_last_time _ | Store_last_timestamp _ => true
  | _ => false
  end.

Definition loop_trace (V : Z) (env : list string) (st : debounce_state)
  (inputs : list arrival) : list action :=
  fst (fst (event_loop V env st inputs)).

Definition loop_state (V : Z) (env : list string) (st : debounce_state)
  (inputs : list arrival) : debounce_state :=
  snd (fst (event_loop V env st inputs)).

Definition loop_status (V : Z) (env : list string) (st : debounce_state)
  (inputs : list arrival) : loop_end :=
  snd (event_loop V env st inputs).

(** Some input of the list is the NULL of a closed channel. *)
Definition channel_closes (inputs : list arrival) : bool :=
  existsb (fun a => match wait_result a with None => true | Some _ => false end)
    inputs.

(** An input that delivers an event carrying the screen-change flag. *)
Definition is_notification (a : arrival) : bool :=
  match wait_result a with
  | Some evt => screen_change_flag evt
  | None => false
  end.

Definition arrival_timestamp (a : arrival) : Z :=
  match wait_result a with
  | Some evt => timestamp evt
  | None => 0
  end.

(** [chain gap T t l]: the inputs of [l] are notifications whose timestamps
    increase strictly from [T] on and whose clock readings advance by at
    least [gap] seconds each, from [t] on. *)
Fixpoint chain (gap T t : Z) (l : list arrival) : bool :=
  match l with
  | [] => true
  | a :: rest =>
      is_notification a
      && (T <? arrival_timestamp a)
      && (t + gap <=? clock a)
      && chain gap (arrival_timestamp a) (clock a) rest
  end.

(** A sequence of notifications with strictly increasing timestamps, spaced
    at least [gap] seconds apart; nothing is asked of the first one. *)
Definition increasing_spaced (gap : Z) (l : list arrival) : bool :=
  match l with
  | [] => true
  | a :: rest =>
      is_notification a && chain gap (arrival_timestamp a) (clock a) rest
  end.

(** The inputs of [l] are read on the clock no later than [t + 1]. *)
Definition within_second (t : Z) (l : list arrival) : bool :=
  forallb (fun a => clock a <=? t + 1) l.

(** Two lists of inputs that differ at most in what the launches meet. *)
Definition same_events (l1 l2 : list arrival) : Prop :=
  Forall2 (fun a b => wait_result a = wait_result b /\ clock a = clock b)
    l1 l2.

(** A notification built from its timestamp and the clock reading. *)
Definition notification (T now : Z) : arrival :=
  {| wait_result := Some {| response_type := 89; timestamp := T |};
     clock := now;
     launch := {| fork_ret := Fork_pid 4242; exec := Exec_replaced 0 |} |}.

(** A world for the examples: the options [getopt_long] reports, the
    connection status, the clock at start and the loop's inputs; the process
    starts in /home/user, attached, and [daemon] succeeds. *)
Definition example_world (opts : list getopt_result) (err start : Z)
  (inputs : list arrival) : world :=
  {| environ := ["DISPLAY=:0"%string];
     getopt_results := opts;
     proc0 := {| cwd := "/home/user"; stdio := Inherited; detached := false |};
     daemon_ok := true;
     conn_error := err;
     root := 1;
     start_time := start;
     arrivals := inputs |}.

(** The NULL of a closed channel. *)
Definition channel_closed : arrival :=
  {| wait_result := None;
     clock := 0;
     launch := {| fork_ret := Fork_failed; exec := Exec_failed |} |}.

(** An event without the screen-change flag (34 is MappingNotify). *)
Definition other_event (word now : Z) : arrival :=
  {| wait_result := Some {| response_type := 34; timestamp := word |};
     clock := now;
     launch := {| fork_ret := Fork_pid 4242; exec := Exec_replaced 0 |} |}.

(** ** The default screen *)

(** [xcb_screen_iterator_t] over the roots of the setup: the root windows of
    the screens from the cursor on; [data] points to the first of them, and
    past the end of the setup when none is left. *)
Definition xcb_screen_iterator_t := list Z.

(** [xcb_screen_next]: the cursor moves to the next screen. *)
Definition xcb_screen_next (iter : xcb_screen_iterator_t)
  : xcb_screen_iterator_t :=
  tl iter.

(** The loop [for (int i = 0; i < screenNum; ++i) xcb_screen_next(&iter);],
    from the value of [i] on. *)
Equations? screen_loop (i screenNum : Z) (it : xcb_screen_iterator_t)
  : xcb_screen_iterator_t by wf (Z.to_nat (screenNum - i)) lt :=
  screen_loop i screenNum it with Z_lt_dec i screenNum => {
    | left _ => screen_loop (i + 1) screenNum (xcb_screen_next it);
    | right _ => it
  }.
Proof. lia. Qed.

(** [default_screen->root], when [iter.data] still points into the setup. *)
Definition default_screen_root (roots : list Z) (screenNum : Z) : option Z :=
  hd_error (screen_loop 0 screenNum roots).

(** ** Signals *)

(** What [sigterm_handler] does. *)
Inductive handler_action :=
| Signal_call (sig : signal_t) (handler : sighandler_t)
| Kill_self (sig : signal_t).

(** The body of [sigterm_handler]. *)
Definition sigterm_handler_body (signum : signal_t) : list handler_action :=
  [Signal_call signum SIG_DFL; Kill_self signum].

Definition signal_eqb (a b : signal_t) : bool :=
  match a, b with
  | SIGINT, SIGINT | SIGTERM, SIGTERM | SIGQUIT, SIGQUIT | SIGHUP, SIGHUP =>
      true
  | _, _ => false
  end.

(** The dispositions of the four signals. *)
Definition sigtable := signal_t -> sighandler_t.

Definition set_disposition (t : sigtable) (sig : signal_t) (h : sighandler_t)
  : sigtable :=
  fun s => if signal_eqb s sig then h else t s.

(** The dispositions after the [sigaction] and [signal] calls of a trace. *)
Definition dispositions (tr : list action) (t0 : sigtable) : sigtable :=
  fold_left
    (fun t a =>
       match a with
       | Sigaction sig h => set_disposition t sig h
       | _ => t
       end)
    tr t0.

(** What becomes of a signal sent to the process. *)
Inductive fate :=
| Ignored
| Killed_by (sig : signal_t)   (* the default action of the four signals *)
| Handled.                     (* the handler returned, the process goes on *)

(** A handler's body run to its end: the dispositions it leaves, and the
    signals it sent to its own process, which stay pending until it
    returns. *)
Fixpoint run_body (body : list handler_action) (t : sigtable)
  (pending : list signal_t) : sigtable * list signal_t :=
  match body with
  | [] => (t, pending)
  | Signal_call sig h :: rest => run_body rest (set_disposition t sig h) pending
  | Kill_self sig :: rest => run_body rest t (pending ++ [sig])
  end.

(** Delivery of a signal under the dispositions [t].  [fuel] bounds how
    often a handler may be entered again through the signals it sends. *)
Fixpoint deliver (fuel : nat) (t : sigtable) (sig : signal_t)
  : option (fate * sigtable) :=
  match t sig with
  | SIG_IGN => Some (Ignored, t)
  | SIG_DFL => Some (Killed_by sig, t)
  | sigterm_handler =>
      match fuel with
      | O => None
      | S fuel' =>
          let '(t1, pending) := run_body (sigterm_handler_body sig) t [] in
          (fix deliver_pending (l : list signal_t) (t2 : sigtable)
             : option (fate * sigtable) :=
             match l with
             | [] => Some (Handled, t2)
             | s :: l' =>
                 match deliver fuel' t2 s with
                 | Some (Killed_by k, t3) => Some (Killed_by k, t3)
                 | Some (_, t3) => deliver_pending l' t3
                 | None => None
                 end
             end) pending t1
      end
  end.

(** ** Further observations *)

Definition is_stdout (a : action) : bool :=
  match a with
  | Stdout _ => true
  | _ => false
  end.

(** The inputs the loop gets to see: those up to the first NULL. *)
Fixpoint until_close (inputs : list arrival) : list arrival :=
  match inputs with
  | [] => []
  | a :: rest =>
      match wait_result a with
      | None => [a]
      | Some _ => a :: until_close rest
      end
  end.

(** The system calls made by the children of a trace's launches, and those
    made by the launcher itself. *)
Definition child_calls (tr : list action) : list proc_action :=
  flat_map
    (fun a =>
       match a with
       | Call_ar_launch r =>
           match lr_child r with
           | Some c => fst c
           | None => []
           end
       | _ => []
       end)
    tr.

Definition launcher_calls (tr : list action) : list proc_action :=
  flat_map
    (fun a =>
       match a with
       | Call_ar_launch r => fst (lr_parent r)
       | _ => []
       end)
    tr.

(** Every launch of the inputs meets a [fork] that succeeds. *)
Definition forks_succeed (inputs : list arrival) : bool :=
  forallb
    (fun a =>
       match fork_ret (launch a) with
       | Fork_pid _ => true
       | Fork_failed => false
       end)
    inputs.

(** An input that cannot trigger in state [st]: an event without the flag,
    or with a timestamp not above [last_timestamp], or read on the clock not
    more than a second after [last_time]. *)
Definition cannot_trigger (st : debounce_state) (a : arrival) : bool :=
  match wait_result a with
  | Some evt =>
      negb (screen_change_flag evt)
      || (timestamp evt <=? last_timestamp st)
      || (clock a <=? last_time st + 1)
  | None => false
  end.

(** * Properties *)

(** ** Counting in traces *)

Lemma invocations_app (t1 t2 : list action) :
  invocations (t1 ++ t2) = (invocations t1 + invocations t2)%nat.
Proof.
  unfold invocations. now rewrite filter_app, length_app.
Qed.

Lemma invocations_log (l : list string) : invocations (map Stdout l) = 0%nat.
Proof.
  induction l as [|s l IH]; [reflexivity|exact IH].
Qed.

Lemma received_app (t1 t2 : list action) :
  received (t1 ++ t2) = (received t1 + received t2)%nat.
Proof.
  unfold received. now rewrite filter_app, length_app.
Qed.

Lemma filter_log (f : action -> bool) (l : list string) :
  (forall s, f (Stdout s) = false) -> filter f (map Stdout l) = [].
Proof.
  intros Hf. induction l as [|s l IH]; simpl; [reflexivity|].
  now rewrite Hf.
Qed.

(** ** The filter *)

Lemma trigger_spec (st : debounce_state) (T now : Z) :
  trigger st T now = true <-> last_timestamp st < T /\ last_time st + 1 < now.
Proof.
  unfold trigger. rewrite andb_true_iff, !Z.ltb_lt. tauto.
Qed.

Lemma debounce_fired V env st T now lw :
  trigger st T now = true ->
  debounce V env st T now lw =
    (map Stdout (ar_log V msg_launch)
       ++ [Call_ar_launch (ar_launch env lw);
           Store_last_time now; Store_last_timestamp T],
     {| last_timestamp := T; last_time := now |}).
Proof.
  intros H. unfold debounce. now rewrite H.
Qed.

Lemma debounce_quiet V env st T now lw :
  trigger st T now = false -> debounce V env st T now lw = ([], st).
Proof.
  intros H. unfold debounce. now rewrite H.
Qed.

Lemma debounce_invocations V env st T now lw :
  invocations (fst (debounce V env st T now lw))
  = if trigger st T now then 1%nat else 0%nat.
Proof.
  unfold debounce. destruct (trigger st T now); simpl; [|reflexivity].
  rewrite invocations_app, invocations_log. reflexivity.
Qed.

(** C1. A change notification with timestamp [T] read at clock [now] makes
    the program call the launcher exactly when [T] exceeds the last
    triggered timestamp and [now] exceeds the last triggered clock reading
    plus one second.  When it does, the trace of the step is the optional
    log line, then the call, then the two stores: the state is updated only
    after the launcher has returned, to [T] and [now]. *)
Theorem C1_trigger_condition_and_order :
  forall V env st T now lw,
    (invocations (fst (debounce V env st T now lw)) = 1%nat
     <-> last_timestamp st < T /\ last_time st + 1 < now)
    /\ (invocations (fst (debounce V env st T now lw)) = 0%nat
        <-> ~ (last_timestamp st < T /\ last_time st + 1 < now))
    /\ (last_timestamp st < T /\ last_time st + 1 < now ->
        debounce V env st T now lw =
          (map Stdout (ar_log V msg_launch)
             ++ [Call_ar_launch (ar_launch env lw);
                 Store_last_time now; Store_last_timestamp T],
           {| last_timestamp := T; last_time := now |})
        /\ snd (lr_parent (ar_launch env lw)) = Returns 0).
Proof.
  intros V env st T now lw.
  rewrite debounce_invocations, <- trigger_spec.
  destruct (trigger st T now) eqn:E.
  - split; [intuition congruence|]. split; [intuition congruence|].
    intros _. split; [now apply debounce_fired|].
    unfold ar_launch, ar_launch_body; simpl.
    destruct (fork_ret lw); reflexivity.
  - repeat split; intuition congruence.
Qed.

(** ** The loop *)

Section Loop.

Variable V : Z.
Variable env : list string.

Lemma event_loop_nil st :
  event_loop V env st [] = (map Stdout (ar_log V msg_waiting), st, Blocked).
Proof. reflexivity. Qed.

Lemma event_loop_null st a rest :
  wait_result a = None ->
  event_loop V env st (a :: rest) =
    (map Stdout (ar_log V msg_waiting) ++ [Xcb_wait_for_event None], st, Closed).
Proof.
  intros H. simpl. now rewrite H.
Qed.

Lemma event_loop_event st a rest evt :
  wait_result a = Some evt ->
  event_loop V env st (a :: rest) =
    (map Stdout (ar_log V msg_waiting) ++ [Xcb_wait_for_event (Some evt)]
       ++ fst (dispatch V env st evt (clock a) (launch a))
       ++ loop_trace V env
            (snd (dispatch V env st evt (clock a) (launch a))) rest,
     loop_state V env
       (snd (dispatch V env st evt (clock a) (launch a))) rest,
     loop_status V env
       (snd (dispatch V env st evt (clock a) (launch a))) rest).
Proof.
  intros H. unfold loop_trace, loop_state, loop_status. simpl. rewrite H.
  destruct (dispatch V env st evt (clock a) (launch a)) as [t1 st1].
  cbn [fst snd].
  destruct (event_loop V env st1 rest) as [[t2 st2] e]. cbn [fst snd].
  now rewrite <- app_assoc.
Qed.

Lemma dispatch_monotone st evt now lw :
  last_timestamp st <= last_timestamp (snd (dispatch V env st evt now lw)).
Proof.
  unfold dispatch, debounce.
  destruct (screen_change_flag evt); [|simpl; lia].
  destruct (trigger st (timestamp evt) now) eqn:E; simpl; [|lia].
  apply trigger_spec in E. lia.
Qed.

Lemma loop_state_monotone inputs :
  forall st, last_timestamp st <= last_timestamp (loop_state V env st inputs).
Proof.
  induction inputs as [|a rest IH]; intros st.
  - unfold loop_state. simpl. lia.
  - destruct (wait_result a) as [evt|] eqn:E.
    + unfold loop_state at 1. rewrite (event_loop_event _ _ _ _ E). simpl.
      etransitivity; [apply dispatch_monotone|apply IH].
    + unfold loop_state. rewrite (event_loop_null _ _ _ E). simpl. lia.
Qed.

(** A run over [xs ++ ys] is the run over [xs], continued over [ys] from the
    state reached unless the loop was left by [break]. *)
Lemma loop_state_app xs :
  forall st ys,
    loop_state V env st (xs ++ ys) =
      match loop_status V env st xs with
      | Blocked => loop_state V env (loop_state V env st xs) ys
      | Closed => loop_state V env st xs
      end.
Proof.
  induction xs as [|a rest IH]; intros st ys.
  - reflexivity.
  - simpl app. destruct (wait_result a) as [evt|] eqn:E.
    + unfold loop_state at 1 3 4, loop_status at 1.
      rewrite !(event_loop_event _ _ _ _ E). simpl. apply IH.
    + unfold loop_state, loop_status.
      now rewrite !(event_loop_null _ _ _ E).
Qed.

End Loop.

(** C5. The variable [last_timestamp] never decreases.  Each iteration leaves
    it at least as large as it was, every value the iteration stores into it
    is larger than the value replaced, and, from the 0 that [main] starts
    with, the value after any prefix of a run is at most the value after the
    whole run. *)
Theorem C5_last_timestamp_monotone :
  forall V env st,
    (forall evt now lw,
        last_timestamp st
        <= last_timestamp (snd (dispatch V env st evt now lw))
        /\ (forall v, In (Store_last_timestamp v)
                        (fst (dispatch V env st evt now lw)) ->
                      last_timestamp st < v))
    /\ (forall xs ys,
           last_timestamp st <= last_timestamp (loop_state V env st xs)
           /\ last_timestamp (loop_state V env st xs)
              <= last_timestamp (loop_state V env st (xs ++ ys))).
Proof.
  intros V env st. split.
  - intros evt now lw. split; [apply dispatch_monotone|].
    intros v. unfold dispatch, debounce.
    destruct (screen_change_flag evt); [|simpl; tauto].
    destruct (trigger st (timestamp evt) now) eqn:E; [|simpl; tauto].
    apply trigger_spec in E. simpl. rewrite in_app_iff. simpl.
    intros [H|[H|[H|[H|[]]]]]; try discriminate H.
    + apply in_map_iff in H. destruct H as (s & Hs & _). discriminate Hs.
    + injection H as <-. lia.
  - intros xs ys. split; [apply loop_state_monotone|].
    rewrite loop_state_app.
    destruct (loop_status V env st xs); [apply loop_state_monotone|lia].
Qed.

(** C6. A notification whose timestamp does not exceed [last_timestamp]
    causes no launch and leaves both variables as they were, whatever the
    clock reads.  In particular, once a notification has triggered, the same
    timestamp submitted again, at any later reading, triggers nothing. *)
Theorem C6_stale_timestamp_suppressed :
  forall V env st T now lw,
    T <= last_timestamp st ->
    debounce V env st T now lw = ([], st)
    /\ invocations (fst (debounce V env st T now lw)) = 0%nat
    /\ (forall T0 now0 lw0,
           trigger st T0 now0 = true ->
           forall now1 lw1,
             debounce V env (snd (debounce V env st T0 now0 lw0)) T0 now1 lw1
             = ([], {| last_timestamp := T0; last_time := now0 |})).
Proof.
  intros V env st T now lw H.
  assert (E : trigger st T now = false).
  { unfold trigger. apply andb_false_iff. left. apply Z.ltb_ge. exact H. }
  split; [now apply debounce_quiet|].
  split; [now rewrite debounce_invocations, E|].
  intros T0 now0 lw0 H0 now1 lw1.
  rewrite (debounce_fired _ _ _ _ _ _ H0). simpl.
  apply debounce_quiet. unfold trigger. simpl.
  now rewrite Z.ltb_irrefl.
Qed.

Lemma C6_stale_timestamp_suppressed_witness :
  debounce 1 [] {| last_timestamp := 100; last_time := 10 |} 50 99999
    {| fork_ret := Fork_pid 7; exec := Exec_replaced 0 |}
  = ([], {| last_timestamp := 100; last_time := 10 |}).
Proof.
  apply (C6_stale_timestamp_suppressed 1 []
           {| last_timestamp := 100; last_time := 10 |} 50 99999
           {| fork_ret := Fork_pid 7; exec := Exec_replaced 0 |}).
  simpl. lia.
Defined.

(** C7. A notification with timestamp 0 never triggers: in every state the
    loop can reach from the state [main] starts it in, where
    [last_timestamp] is the literal 0, the variable is at least 0, and the
    filter asks for a strictly larger timestamp. *)
Theorem C7_zero_timestamp_never_triggers :
  forall V env start inputs now lw,
    let st :=
      loop_state V env {| last_timestamp := 0; last_time := start |} inputs in
    0 <= last_timestamp st
    /\ trigger st 0 now = false
    /\ debounce V env st 0 now lw = ([], st)
    /\ (forall evt,
           timestamp evt = 0 -> dispatch V env st evt now lw = ([], st)).
Proof.
  intros V env start inputs now lw st.
  assert (H : 0 <= last_timestamp st).
  { apply (loop_state_monotone V env inputs
             {| last_timestamp := 0; last_time := start |}). }
  assert (E : trigger st 0 now = false).
  { unfold trigger. apply andb_false_iff. left. now apply Z.ltb_ge. }
  repeat split; try assumption.
  - now apply debounce_quiet.
  - intros evt H0. unfold dispatch. rewrite H0.
    destruct (screen_change_flag evt); [now apply debounce_quiet|reflexivity].
Qed.

(** ** Sequences of notifications *)

Section Sequences.

Variable V : Z.
Variable env : list string.

Lemma loop_trace_event st a rest evt :
  wait_result a = Some evt ->
  loop_trace V env st (a :: rest) =
    map Stdout (ar_log V msg_waiting) ++ [Xcb_wait_for_event (Some evt)]
      ++ fst (dispatch V env st evt (clock a) (launch a))
      ++ loop_trace V env
           (snd (dispatch V env st evt (clock a) (launch a))) rest.
Proof.
  intros E. unfold loop_trace at 1. now rewrite (event_loop_event _ _ _ _ _ _ E).
Qed.

Lemma loop_state_event st a rest evt :
  wait_result a = Some evt ->
  loop_state V env st (a :: rest) =
    loop_state V env (snd (dispatch V env st evt (clock a) (launch a))) rest.
Proof.
  intros E. unfold loop_state at 1. now rewrite (event_loop_event _ _ _ _ _ _ E).
Qed.

Lemma loop_status_event st a rest evt :
  wait_result a = Some evt ->
  loop_status V env st (a :: rest) =
    loop_status V env (snd (dispatch V env st evt (clock a) (launch a))) rest.
Proof.
  intros E. unfold loop_status at 1.
  now rewrite (event_loop_event _ _ _ _ _ _ E).
Qed.

Lemma invocations_loop_event st a rest evt :
  wait_result a = Some evt ->
  invocations (loop_trace V env st (a :: rest)) =
    (invocations (fst (dispatch V env st evt (clock a) (launch a)))
     + invocations
         (loop_trace V env
            (snd (dispatch V env st evt (clock a) (launch a))) rest))%nat.
Proof.
  intros E. rewrite (loop_trace_event _ _ _ _ E).
  rewrite !invocations_app, invocations_log. reflexivity.
Qed.

Lemma received_log l : received (map Stdout l) = 0%nat.
Proof.
  induction l as [|s l IH]; [reflexivity|exact IH].
Qed.

Lemma received_dispatch st evt now lw :
  received (fst (dispatch V env st evt now lw)) = 0%nat.
Proof.
  unfold dispatch, debounce.
  destruct (screen_change_flag evt); [|reflexivity].
  destruct (trigger st (timestamp evt) now); [|reflexivity].
  simpl. rewrite received_app, received_log. reflexivity.
Qed.

Lemma received_loop_event st a rest evt :
  wait_result a = Some evt ->
  received (loop_trace V env st (a :: rest)) =
    S (received
         (loop_trace V env
            (snd (dispatch V env st evt (clock a) (launch a))) rest)).
Proof.
  intros E. rewrite (loop_trace_event _ _ _ _ E).
  rewrite !received_app, received_log, received_dispatch. reflexivity.
Qed.

Lemma is_notification_inv a :
  is_notification a = true ->
  exists evt, wait_result a = Some evt
              /\ screen_change_flag evt = true
              /\ arrival_timestamp a = timestamp evt.
Proof.
  unfold is_notification, arrival_timestamp.
  destruct (wait_result a) as [evt|]; [|discriminate].
  intros H. now exists evt.
Qed.

(** Notifications that each exceed the state by timestamp and by more than a
    second on the clock all trigger. *)
Lemma chain_all_trigger l :
  forall st,
    chain 2 (last_timestamp st) (last_time st) l = true ->
    invocations (loop_trace V env st l) = List.length l
    /\ received (loop_trace V env st l) = List.length l
    /\ loop_status V env st l = Blocked.
Proof.
  induction l as [|a rest IH]; intros st H.
  - unfold loop_trace, loop_status. simpl.
    now rewrite invocations_log, received_log.
  - simpl in H. rewrite !andb_true_iff in H.
    destruct H as [[[Hn Hts] Hclk] Hrest].
    destruct (is_notification_inv _ Hn) as (evt & E & Hflag & Ets).
    rewrite Ets in Hts, Hrest.
    apply Z.ltb_lt in Hts. apply Z.leb_le in Hclk.
    assert (Ht : trigger st (timestamp evt) (clock a) = true).
    { apply trigger_spec. lia. }
    rewrite (invocations_loop_event _ _ _ _ E), (received_loop_event _ _ _ _ E),
      (loop_status_event _ _ _ _ E).
    unfold dispatch. rewrite Hflag, (debounce_fired _ _ _ _ _ _ Ht).
    cbn [fst snd].
    specialize (IH {| last_timestamp := timestamp evt; last_time := clock a |}
                  Hrest).
    destruct IH as (IH1 & IH2 & IH3).
    rewrite IH1, IH2, IH3, invocations_app, invocations_log. simpl.
    auto.
Qed.

(** Inputs read on the clock no later than a second after the last trigger
    launch nothing and leave the state alone. *)
Lemma within_second_quiet l :
  forall st,
    within_second (last_time st) l = true ->
    invocations (loop_trace V env st l) = 0%nat
    /\ loop_state V env st l = st.
Proof.
  induction l as [|a rest IH]; intros st H.
  - unfold loop_trace, loop_state. simpl. now rewrite invocations_log.
  - simpl in H. apply andb_true_iff in H. destruct H as [Hclk Hrest].
    apply Z.leb_le in Hclk.
    destruct (wait_result a) as [evt|] eqn:E.
    + assert (D : dispatch V env st evt (clock a) (launch a) = ([], st)).
      { unfold dispatch. destruct (screen_change_flag evt); [|reflexivity].
        apply debounce_quiet. unfold trigger. apply andb_false_iff. right.
        apply Z.ltb_ge. lia. }
      rewrite (invocations_loop_event _ _ _ _ E), (loop_state_event _ _ _ _ E).
      rewrite D. cbn [fst snd]. apply (IH st Hrest).
    + unfold loop_trace, loop_state. rewrite (event_loop_null _ _ _ _ _ E).
      cbn [fst snd]. now rewrite invocations_app, invocations_log.
Qed.

End Sequences.

(** C2, as amended.  Take notifications with strictly increasing timestamps,
    each read on the clock more than one second after the one before (the
    reading, in whole seconds, is larger by at least 2), the first of them
    exceeding the state in the same two ways.  Then every one of them
    triggers: the number of launches is the number of notifications, all of
    which are received. *)
Theorem C2_spaced_sequence_all_trigger :
  forall V env st l,
    chain 2 (last_timestamp st) (last_time st) l = true ->
    invocations (loop_trace V env st l) = List.length l
    /\ received (loop_trace V env st l) = List.length l.
Proof.
  intros V env st l H.
  destruct (chain_all_trigger V env l st H) as (H1 & H2 & _). now split.
Qed.

Lemma C2_spaced_sequence_all_trigger_witness :
  invocations
    (loop_trace 0 [] {| last_timestamp := 0; last_time := 0 |}
       [notification 100 10; notification 150 12]) = 2%nat
  /\ received
       (loop_trace 0 [] {| last_timestamp := 0; last_time := 0 |}
          [notification 100 10; notification 150 12]) = 2%nat.
Proof.
  apply (C2_spaced_sequence_all_trigger 0 []
           {| last_timestamp := 0; last_time := 0 |}
           [notification 100 10; notification 150 12]).
  reflexivity.
Defined.

(** C2 as stated fails.  Two notifications with timestamps 100 and 150 read
    on the clock at 10 and 11, one second apart, launch once, not twice; and
    a single notification read in the second in which the state was last
    updated launches nothing. *)
Lemma C2_counterexample :
  (increasing_spaced 1 [notification 100 10; notification 150 11] = true
   /\ invocations
        (loop_trace 0 [] {| last_timestamp := 0; last_time := 0 |}
           [notification 100 10; notification 150 11])
      <> List.length [notification 100 10; notification 150 11])
  /\ (increasing_spaced 1 [notification 100 10] = true
      /\ invocations
           (loop_trace 0 [] {| last_timestamp := 0; last_time := 10 |}
              [notification 100 10])
         <> List.length [notification 100 10]).
Proof.
  repeat split; try reflexivity; vm_compute; discriminate.
Qed.

(** C3. Let a notification trigger, and let any number of further inputs
    follow it whose clock readings are at most one above its own (in
    particular, inputs read within the same second), whatever their
    timestamps.  Then the run launches exactly once, at the first
    notification, and ends with [last_timestamp] and [last_time] equal to
    that notification's timestamp and clock reading: the inputs after it
    launch nothing and change nothing. *)
Theorem C3_burst_launches_once :
  forall V env st first rest evt,
    wait_result first = Some evt ->
    screen_change_flag evt = true ->
    trigger st (timestamp evt) (clock first) = true ->
    within_second (clock first) rest = true ->
    let st1 := {| last_timestamp := timestamp evt;
                  last_time := clock first |} in
    invocations (loop_trace V env st (first :: rest)) = 1%nat
    /\ invocations (fst (dispatch V env st evt (clock first) (launch first)))
       = 1%nat
    /\ snd (dispatch V env st evt (clock first) (launch first)) = st1
    /\ invocations (loop_trace V env st1 rest) = 0%nat
    /\ loop_state V env st (first :: rest) = st1.
Proof.
  intros V env st first rest evt E Hflag Ht Hw st1.
  assert (D : dispatch V env st evt (clock first) (launch first)
              = (map Stdout (ar_log V msg_launch)
                   ++ [Call_ar_launch (ar_launch env (launch first));
                       Store_last_time (clock first);
                       Store_last_timestamp (timestamp evt)], st1)).
  { unfold dispatch. rewrite Hflag. now apply debounce_fired. }
  destruct (within_second_quiet V env rest st1 Hw) as [Q1 Q2].
  rewrite (invocations_loop_event _ _ _ _ _ _ E), (loop_state_event _ _ _ _ _ _ E).
  rewrite D. cbn [fst snd]. rewrite Q1, Q2.
  rewrite invocations_app, invocations_log. simpl. auto.
Qed.

Lemma C3_burst_launches_once_witness :
  invocations
    (loop_trace 1 [] {| last_timestamp := 0; last_time := 0 |}
       [notification 100 10; notification 150 10; notification 200 10])
  = 1%nat
  /\ loop_state 1 [] {| last_timestamp := 0; last_time := 0 |}
       [notification 100 10; notification 150 10; notification 200 10]
     = {| last_timestamp := 100; last_time := 10 |}.
Proof.
  pose proof
    (C3_burst_launches_once 1 [] {| last_timestamp := 0; last_time := 0 |}
       (notification 100 10) [notification 150 10; notification 200 10]
       {| response_type := 89; timestamp := 100 |}
       eq_refl eq_refl eq_refl eq_refl) as H.
  cbv zeta in H. destruct H as (H1 & _ & _ & _ & H5).
  split; [exact H1|exact H5].
Defined.

(** ** Events of other types *)


Lemma effects_app (t1 t2 : list action) :
  filter is_effect (t1 ++ t2) = filter is_effect t1 ++ filter is_effect t2.
Proof. apply filter_app. Qed.





(** ** The launcher *)

Lemma ar_launch_parent env lw :
  lr_parent (ar_launch env lw) = ([Waitpid (pid_of (fork_ret lw)) 0 0], Returns 0).
Proof.
  unfold ar_launch, ar_launch_body; simpl.
  destruct (fork_ret lw); reflexivity.
Qed.

Lemma launches_do_not_steer V env l1 l2 :
  same_events l1 l2 ->
  forall st,
    loop_state V env st l1 = loop_state V env st l2
    /\ loop_status V env st l1 = loop_status V env st l2
    /\ invocations (loop_trace V env st l1)
       = invocations (loop_trace V env st l2)
    /\ received (loop_trace V env st l1) = received (loop_trace V env st l2).
Proof.
  induction 1 as [|a b l1 l2 [Hw Hc] _ IH]; intros st; [now repeat split|].
  destruct (wait_result a) as [evt|] eqn:E.
  - assert (E' : wait_result b = Some evt) by congruence.
    rewrite (loop_state_event _ _ _ _ _ _ E), (loop_state_event _ _ _ _ _ _ E'),
      (loop_status_event _ _ _ _ _ _ E), (loop_status_event _ _ _ _ _ _ E'),
      (invocations_loop_event _ _ _ _ _ _ E),
      (invocations_loop_event _ _ _ _ _ _ E'),
      (received_loop_event _ _ _ _ _ _ E), (received_loop_event _ _ _ _ _ _ E').
    rewrite <- Hc.
    assert (D : snd (dispatch V env st evt (clock a) (launch a))
                = snd (dispatch V env st evt (clock a) (launch b))
                /\ invocations (fst (dispatch V env st evt (clock a) (launch a)))
                   = invocations
                       (fst (dispatch V env st evt (clock a) (launch b)))).
    { unfold dispatch. destruct (screen_change_flag evt); [|now split].
      rewrite !debounce_invocations. unfold debounce.
      destruct (trigger st (timestamp evt) (clock a)); now split. }
    destruct D as [D1 D2]. rewrite <- D1, <- D2.
    destruct (IH (snd (dispatch V env st evt (clock a) (launch a))))
      as (I1 & I2 & I3 & I4).
    now rewrite I1, I2, I3, I4.
  - assert (E' : wait_result b = None) by congruence.
    unfold loop_state, loop_status, loop_trace.
    rewrite (event_loop_null _ _ _ _ _ E), (event_loop_null _ _ _ _ _ E').
    now repeat split.
Qed.

(** C9. Whenever [fork] has produced a child, the child makes one system
    call, [execve] of the fixed path /usr/bin/autorandr with the arguments
    --change --default default and the environment [environ] of the
    launcher; if [execve] fails the child calls [exit] with 127, otherwise
    it ends as the tool ends.  The launcher calls [waitpid] on that child
    with options 0, which returns once the child has terminated, and then
    [ar_launch] returns 0, whatever the child did.  Nothing in a run depends
    on the outcome of a launch: two runs over the same events and clock
    readings reach the same state, end the same way and launch and receive
    equally often. *)
Theorem C9_launch_contract :
  forall V env lw,
    (forall p,
        fork_ret lw = Fork_pid p ->
        lr_child (ar_launch env lw) =
          Some ([Execve "/usr/bin/autorandr"
                   ["/usr/bin/autorandr"%string; "--change"%string;
                    "--default"%string; "default"%string] env],
                match exec lw with
                | Exec_failed => Exits 127
                | Exec_replaced s => Replaced s
                end)
        /\ lr_parent (ar_launch env lw)
           = ([Waitpid (Z.pos p) 0 0], Returns 0))
    /\ snd (lr_parent (ar_launch env lw)) = Returns 0
    /\ (forall st l1 l2,
           same_events l1 l2 ->
           loop_state V env st l1 = loop_state V env st l2
           /\ loop_status V env st l1 = loop_status V env st l2
           /\ invocations (loop_trace V env st l1)
              = invocations (loop_trace V env st l2)
           /\ received (loop_trace V env st l1)
              = received (loop_trace V env st l2)).
Proof.
  intros V env lw. split; [|split].
  - intros p Hp. rewrite ar_launch_parent. unfold ar_launch. rewrite Hp.
    simpl. split; reflexivity.
  - now rewrite ar_launch_parent.
  - intros st l1 l2 H. now apply launches_do_not_steer.
Qed.

(** ** Exit codes *)

Lemma loop_status_closes V env inputs :
  forall st,
    loop_status V env st inputs
    = if channel_closes inputs then Closed else Blocked.
Proof.
  induction inputs as [|a rest IH]; intros st; [reflexivity|].
  simpl channel_closes. destruct (wait_result a) as [evt|] eqn:E.
  - rewrite (loop_status_event _ _ _ _ _ _ E). simpl. apply IH.
  - unfold loop_status. now rewrite (event_loop_null _ _ _ _ _ E).
Qed.

Lemma daemonize_block_quiet o ok p :
  invocations (fst (daemonize_block o ok p)) = 0%nat
  /\ received (fst (daemonize_block o ok p)) = 0%nat
  /\ existsb is_connect (fst (daemonize_block o ok p)) = false.
Proof.
  unfold daemonize_block.
  destruct ((daemonize o =? 1) && negb (VERBOSE o =? 1)); now repeat split.
Qed.

(** What [getopt_long] writes is text on standard error, nothing else. *)
Lemma getopt_diagnostics_filter (f : action -> bool) rs :
  (forall text, f (Stderr text) = false) ->
  filter f (getopt_diagnostics rs) = [].
Proof.
  intros F. induction rs as [|r rs IH]; [reflexivity|].
  unfold getopt_diagnostics in *. simpl. rewrite filter_app, IH.
  destruct r; simpl; now rewrite ?F.
Qed.

Lemma getopt_diagnostics_quiet rs :
  invocations (getopt_diagnostics rs) = 0%nat
  /\ received (getopt_diagnostics rs) = 0%nat
  /\ existsb is_connect (getopt_diagnostics rs) = false.
Proof.
  unfold invocations, received.
  rewrite !getopt_diagnostics_filter by reflexivity.
  repeat split.
  induction rs as [|r rs IH]; [reflexivity|].
  unfold getopt_diagnostics in *. simpl. rewrite existsb_app, IH.
  now destruct r.
Qed.

(** C8. If help or version is requested, [main] prints and exits with 0
    before any connection is attempted and without a launch.  Otherwise, if
    the connection reports an error, [main] exits with the reported nonzero
    code, having received no event and launched nothing.  Otherwise, once
    the channel delivers NULL the loop is left and [main] ends with 0; while
    it does not, the process is still running. *)
Theorem C8_exit_codes :
  forall w,
    (help (parse_options (getopt_results w)) = 1
     \/ version (parse_options (getopt_results w)) = 1 ->
     out_status (main w) = Exited 0
     /\ existsb is_connect (out_trace (main w)) = false
     /\ invocations (out_trace (main w)) = 0%nat
     /\ received (out_trace (main w)) = 0%nat)
    /\ (help (parse_options (getopt_results w)) <> 1 ->
        version (parse_options (getopt_results w)) <> 1 ->
        conn_error w <> 0 ->
        out_status (main w) = Exited (conn_error w)
        /\ Exited (conn_error w) <> Exited 0
        /\ invocations (out_trace (main w)) = 0%nat
        /\ received (out_trace (main w)) = 0%nat)
    /\ (help (parse_options (getopt_results w)) <> 1 ->
        version (parse_options (getopt_results w)) <> 1 ->
        conn_error w = 0 ->
        out_status (main w)
        = if channel_closes (arrivals w) then Exited 0 else Running).
Proof.
  intros w. unfold main.
  set (o := parse_options (getopt_results w)).
  destruct (daemonize_block o (daemon_ok w) (proc0 w)) as [td p] eqn:D.
  pose proof (daemonize_block_quiet o (daemon_ok w) (proc0 w)) as Q.
  rewrite D in Q. cbn [fst] in Q. destruct Q as (Q1 & Q2 & Q3).
  destruct (getopt_diagnostics_quiet (getopt_results w)) as (G1 & G2 & G3).
  cbv zeta.
  split; [|split].
  - intros [H|H].
    + rewrite H. simpl Z.eqb. cbv iota. cbn [out_status out_trace].
      rewrite existsb_app, invocations_app, received_app, G1, G2, G3.
      now repeat split.
    + rewrite H.
      destruct (help o =? 1); simpl Z.eqb; cbv iota;
        cbn [out_status out_trace];
        rewrite existsb_app, invocations_app, received_app, G1, G2, G3;
        now repeat split.
  - intros Hh Hv Hc.
    apply Z.eqb_neq in Hh, Hv. rewrite Hh, Hv.
    pose proof Hc as Hc'. apply Z.eqb_neq in Hc'. rewrite Hc'.
    cbn [out_status out_trace].
    split; [reflexivity|]. split; [congruence|].
    now rewrite !invocations_app, !received_app, G1, G2, Q1, Q2.
  - intros Hh Hv Hc.
    apply Z.eqb_neq in Hh, Hv. rewrite Hh, Hv, Hc. simpl Z.eqb. cbv iota.
    pose proof (loop_status_closes (VERBOSE o) (environ w) (arrivals w)
                  {| last_timestamp := 0; last_time := start_time w |}) as L.
    unfold loop_status in L.
    destruct (event_loop (VERBOSE o) (environ w)
                {| last_timestamp := 0; last_time := start_time w |}
                (arrivals w)) as [[tl st] e].
    cbn [snd] in L. cbn [out_status]. rewrite L.
    now destruct (channel_closes (arrivals w)).
Qed.

(** ** Daemonization *)

(** C10, as amended.  The call [daemon(0, 0)] is made exactly when the
    daemonize flag is set and the verbose flag is not.  When both are set
    nothing is done and the process stays as it was.  When the call is made
    and succeeds, the process is detached, its working directory is the
    root directory "/" and its standard streams are redirected to
    /dev/null. *)
Theorem C10_daemonization :
  forall o ok p,
    (existsb is_daemon_call (fst (daemonize_block o ok p)) = true
     <-> daemonize o = 1 /\ VERBOSE o <> 1)
    /\ (daemonize o = 1 /\ VERBOSE o = 1 ->
        daemonize_block o ok p = ([], p))
    /\ (daemonize o = 1 /\ VERBOSE o <> 1 ->
        In (Daemon 0 0) (fst (daemonize_block o ok p))
        /\ (ok = true ->
            snd (daemonize_block o ok p)
            = {| cwd := "/"; stdio := Dev_null; detached := true |})).
Proof.
  intros o ok p. unfold daemonize_block.
  destruct (daemonize o =? 1) eqn:Ed;
    [apply Z.eqb_eq in Ed|apply Z.eqb_neq in Ed];
    (destruct (VERBOSE o =? 1) eqn:Ev;
     [apply Z.eqb_eq in Ev|apply Z.eqb_neq in Ev]);
    simpl; repeat split; try tauto; try discriminate; try (intros [? ?]; tauto).
  intros ->. reflexivity.
Qed.

(** C10 as stated fails.  With -d alone, a process started in /home/user
    calls [daemon(0, 0)] and is afterwards in the root directory: the working
    directory has changed. *)
Lemma C10_counterexample :
  daemonize (parse_options [Got_short "d"]) = 1
  /\ VERBOSE (parse_options [Got_short "d"]) = 0
  /\ In (Daemon 0 0)
       (fst (daemonize_block (parse_options [Got_short "d"]) true
               {| cwd := "/home/user"; stdio := Inherited;
                  detached := false |}))
  /\ detached
       (snd (daemonize_block (parse_options [Got_short "d"]) true
               {| cwd := "/home/user"; stdio := Inherited;
                  detached := false |})) = true
  /\ cwd (snd (daemonize_block (parse_options [Got_short "d"]) true
                 {| cwd := "/home/user"; stdio := Inherited;
                    detached := false |}))
     <> "/home/user"%string.
Proof.
  repeat split; try reflexivity.
  - simpl. tauto.
  - vm_compute. discriminate.
Qed.

(** ** Runs of [main] on concrete worlds *)

(** Timestamps 100 and 150 read in the same second: one launch, and the
    state keeps the first. *)
Example run_burst :
  invocations
    (out_trace (main (example_world [] 0 0
                        [notification 100 10; notification 150 10]))) = 1%nat
  /\ out_state (main (example_world [] 0 0
                        [notification 100 10; notification 150 10]))
     = Some {| last_timestamp := 100; last_time := 10 |}.
Proof. split; reflexivity. Qed.

(** The same timestamps read two seconds apart: two launches. *)
Example run_spaced :
  invocations
    (out_trace (main (example_world [] 0 0
                        [notification 100 10; notification 150 12]))) = 2%nat.
Proof. reflexivity. Qed.

(** Timestamp 50 after timestamp 100, much later: one launch only. *)
Example run_stale :
  invocations
    (out_trace (main (example_world [] 0 0
                        [notification 100 10; notification 50 5000]))) = 1%nat.
Proof. reflexivity. Qed.

(** A notification read in the second after start is suppressed. *)
Example run_startup_quiet :
  out_trace (main (example_world [] 0 1000 [notification 100 1001]))
  = [Xcb_connect;
     Xcb_randr_select_input 1 1;
     Xcb_flush;
     Xcb_wait_for_event (Some {| response_type := 89; timestamp := 100 |})].
Proof. reflexivity. Qed.

(** The whole trace of a verbose run with one launch, up to the close of
    the channel. *)
Example run_verbose :
  out_trace (main (example_world [Got_long 3] 0 0
                     [other_event 7 5; notification 100 10; channel_closed]))
  = [Xcb_connect;
     Stdout msg_connected;
     Xcb_randr_select_input 1 1;
     Xcb_flush;
     Stdout msg_waiting;
     Xcb_wait_for_event (Some {| response_type := 34; timestamp := 7 |});
     Stdout msg_waiting;
     Xcb_wait_for_event (Some {| response_type := 89; timestamp := 100 |});
     Stdout msg_launch;
     Call_ar_launch
       {| lr_fork := Fork_pid 4242;
          lr_child :=
            Some ([Execve "/usr/bin/autorandr" argv ["DISPLAY=:0"%string]],
                  Replaced 0);
          lr_parent := ([Waitpid 4242 0 0], Returns 0) |};
     Store_last_time 10;
     Store_last_timestamp 100;
     Stdout msg_waiting;
     Xcb_wait_for_event None]
  /\ out_status (main (example_world [Got_long 3] 0 0
                         [other_event 7 5; notification 100 10;
                          channel_closed]))
     = Exited 0.
Proof. split; reflexivity. Qed.

(** A failed connection: exit with the reported code, nothing received. *)
Example run_connection_error :
  out_status (main (example_world [] 3 0 [notification 100 10])) = Exited 3
  /\ out_trace (main (example_world [] 3 0 [notification 100 10]))
     = [Xcb_connect; Stderr msg_connection_error].
Proof. split; reflexivity. Qed.

(** -d with --verbose: no call of [daemon], the process is as it was. *)
Example run_daemonize_verbose :
  existsb is_daemon_call
    (out_trace (main (example_world [Got_short "d"; Got_long 3] 0 0 [])))
  = false
  /\ out_proc (main (example_world [Got_short "d"; Got_long 3] 0 0 []))
     = {| cwd := "/home/user"; stdio := Inherited; detached := false |}.
Proof. split; reflexivity. Qed.

(** -d alone: [daemon(0, 0)] is called and the process ends up detached in
    the root directory with its streams on /dev/null. *)
Example run_daemonize :
  existsb is_daemon_call
    (out_trace (main (example_world [Got_short "d"] 0 0 []))) = true
  /\ out_proc (main (example_world [Got_short "d"] 0 0 []))
     = {| cwd := "/"; stdio := Dev_null; detached := true |}.
Proof. split; reflexivity. Qed.

(** --help wins over everything after it in [main]. *)
Example run_help :
  main (example_world [Got_short "d"; Got_long 0] 3 0 [notification 100 10])
  = {| out_trace := [Stdout help_str];
       out_proc := {| cwd := "/home/user"; stdio := Inherited;
                      detached := false |};
       out_state := None;
       out_status := Exited 0 |}.
Proof. reflexivity. Qed.

(** --version likewise. *)
Example run_version :
  out_trace (main (example_world [Got_long 2] 0 0 [])) = [Stdout version_str]
  /\ out_status (main (example_world [Got_long 2] 0 0 [])) = Exited 0.
Proof. split; reflexivity. Qed.

(** ** The default screen *)

Lemma screen_loop_skipn (n : nat) :
  forall i screenNum it,
    Z.to_nat (screenNum - i) = n ->
    screen_loop i screenNum it = skipn n it.
Proof.
  induction n as [|n IH]; intros i screenNum it Hn; simp screen_loop;
    destruct (Z_lt_dec i screenNum) as [Hlt|Hge]; simpl; try lia.
  - reflexivity.
  - rewrite (IH (i + 1) screenNum (xcb_screen_next it)) by lia.
    unfold xcb_screen_next. now destruct it as [|x it]; [destruct n|].
Qed.

Lemma hd_error_skipn (n : nat) :
  forall l : list Z, hd_error (skipn n l) = nth_error l n.
Proof.
  induction n as [|n IH]; intros [|x l]; simpl; auto.
Qed.

(** X1. The loop over the screens leaves the cursor on the screen whose index
    is [screenNum]: the default screen is that element of the setup's roots.
    A [screenNum] that is 0 or negative selects the first screen; one that is
    not below the number of screens leaves the cursor past the last
    screen. *)
Theorem X1_default_screen_is_indexed :
  forall roots screenNum,
    default_screen_root roots screenNum
    = nth_error roots (Z.to_nat screenNum)
    /\ (screenNum <= 0 ->
        default_screen_root roots screenNum = hd_error roots)
    /\ (Z.of_nat (List.length roots) <= screenNum ->
        default_screen_root roots screenNum = None).
Proof.
  intros roots screenNum.
  assert (E : default_screen_root roots screenNum
              = nth_error roots (Z.to_nat screenNum)).
  { unfold default_screen_root.
    rewrite (screen_loop_skipn (Z.to_nat screenNum)) by (f_equal; lia).
    apply hd_error_skipn. }
  split; [exact E|]. split.
  - intros H. rewrite E.
    replace (Z.to_nat screenNum) with 0%nat by lia.
    now destruct roots.
  - intros H. rewrite E. apply nth_error_None. lia.
Qed.

(** ** The command line *)

Lemma parse_options_snoc rs r :
  parse_options (rs ++ [r]) = option_step (parse_options rs) r.
Proof.
  unfold parse_options. now rewrite fold_left_app.
Qed.

(** Each variable is 0 or 1, and it is 1 exactly when [getopt_long] has
    reported an option that sets it. *)
Lemma parse_options_spec rs :
  ((help (parse_options rs) = 1
    <-> In (Got_short "h") rs \/ In (Got_long 0) rs)
   /\ (help (parse_options rs) = 0 \/ help (parse_options rs) = 1))
  /\ ((daemonize (parse_options rs) = 1
       <-> In (Got_short "d") rs \/ In (Got_long 1) rs)
      /\ (daemonize (parse_options rs) = 0
          \/ daemonize (parse_options rs) = 1))
  /\ ((version (parse_options rs) = 1 <-> In (Got_long 2) rs)
      /\ (version (parse_options rs) = 0 \/ version (parse_options rs) = 1))
  /\ ((VERBOSE (parse_options rs) = 1 <-> In (Got_long 3) rs)
      /\ (VERBOSE (parse_options rs) = 0 \/ VERBOSE (parse_options rs) = 1)).
Proof.
  induction rs as [|r rs IH] using rev_ind.
  - cbn. repeat split; try tauto; try discriminate; intros [[]|[]].
  - rewrite parse_options_snoc.
    destruct IH as ((Hh & Hh') & (Hd & Hd') & (Hv & Hv') & (Hb & Hb')).
    assert (S : forall x, In x (rs ++ [r]) <-> In x rs \/ r = x).
    { intros x. rewrite in_app_iff. simpl. tauto. }
    rewrite !S.
    destruct r as [ch|i|text]; unfold option_step.
    + destruct (Ascii.eqb ch "h") eqn:Eh;
        [apply Ascii.eqb_eq in Eh; subst ch
        |destruct (Ascii.eqb ch "d") eqn:Ed;
         [apply Ascii.eqb_eq in Ed; subst ch
         |apply Ascii.eqb_neq in Eh, Ed]];
        cbn; intuition (try discriminate; try congruence).
    + destruct i as [|[|[|[|i]]]]; cbn;
        intuition (try discriminate; try congruence).
      all: destruct i; cbn; intuition (try discriminate; try congruence).
    + intuition (try discriminate; try congruence).
Qed.

Lemma flag_determined (x y : Z) (P Q : Prop) :
  (x = 1 <-> P) -> (x = 0 \/ x = 1) ->
  (y = 1 <-> Q) -> (y = 0 \/ y = 1) ->
  (P <-> Q) -> x = y.
Proof.
  intros Hx [Hx0|Hx1] Hy [Hy0|Hy1] HPQ; try congruence.
  - exfalso. assert (x = 1) by tauto. lia.
  - exfalso. assert (y = 1) by tauto. lia.
Qed.

(** X2. The variables set by the option loop depend only on which options
    [getopt_long] reported, not on their order nor on how often each was
    given. *)
Theorem X2_options_order_and_repetition :
  forall rs rs',
    (forall r, In r rs <-> In r rs') ->
    parse_options rs = parse_options rs'.
Proof.
  intros rs rs' H.
  destruct (parse_options_spec rs)
    as ((Hh & Hh') & (Hd & Hd') & (Hv & Hv') & (Hb & Hb')).
  destruct (parse_options_spec rs')
    as ((Kh & Kh') & (Kd & Kd') & (Kv & Kv') & (Kb & Kb')).
  assert (E1 : help (parse_options rs) = help (parse_options rs')).
  { apply (flag_determined _ _ _ _ Hh Hh' Kh Kh'). rewrite !H. tauto. }
  assert (E2 : daemonize (parse_options rs) = daemonize (parse_options rs')).
  { apply (flag_determined _ _ _ _ Hd Hd' Kd Kd'). rewrite !H. tauto. }
  assert (E3 : version (parse_options rs) = version (parse_options rs')).
  { apply (flag_determined _ _ _ _ Hv Hv' Kv Kv'). rewrite !H. tauto. }
  assert (E4 : VERBOSE (parse_options rs) = VERBOSE (parse_options rs')).
  { apply (flag_determined _ _ _ _ Hb Hb' Kb Kb'). rewrite !H. tauto. }
  destruct (parse_options rs), (parse_options rs'). simpl in *. congruence.
Qed.

Lemma X2_options_order_and_repetition_witness :
  parse_options [Got_short "d"; Got_long 3; Got_short "d"]
  = parse_options [Got_long 3; Got_short "d"].
Proof.
  apply (X2_options_order_and_repetition
           [Got_short "d"; Got_long 3; Got_short "d"]
           [Got_long 3; Got_short "d"]).
  intros r. simpl. tauto.
Defined.

(** ** What a run of [main] contains *)

Lemma filter_nil_app {A} (f : A -> bool) (l1 l2 : list A) :
  filter f l1 = [] -> filter f l2 = [] -> filter f (l1 ++ l2) = [].
Proof.
  intros H1 H2. now rewrite filter_app, H1, H2.
Qed.

(** The loop only writes log lines, waits, launches and stores. *)
Lemma loop_trace_filter_none (f : action -> bool) V env :
  (forall s, f (Stdout s) = false) ->
  (forall e, f (Xcb_wait_for_event e) = false) ->
  (forall r, f (Call_ar_launch r) = false) ->
  (forall v, f (Store_last_time v) = false) ->
  (forall v, f (Store_last_timestamp v) = false) ->
  forall l st, filter f (loop_trace V env st l) = [].
Proof.
  intros F1 F2 F3 F4 F5.
  induction l as [|a rest IH]; intros st.
  - unfold loop_trace. simpl. now apply filter_log.
  - destruct (wait_result a) as [evt|] eqn:E.
    + rewrite (loop_trace_event _ _ _ _ _ _ E).
      apply filter_nil_app; [now apply filter_log|].
      apply filter_nil_app; [simpl; now rewrite F2|].
      apply filter_nil_app; [|apply IH].
      unfold dispatch, debounce.
      destruct (screen_change_flag evt); [|reflexivity].
      destruct (trigger st (timestamp evt) (clock a)); [|reflexivity].
      cbn [fst]. apply filter_nil_app; [now apply filter_log|].
      simpl. now rewrite F3, F4, F5.
    + unfold loop_trace. rewrite (event_loop_null _ _ _ _ _ E). cbn [fst].
      apply filter_nil_app; [now apply filter_log|].
      simpl. now rewrite F2.
Qed.

Lemma in_getopt_diagnostics rs a :
  In a (getopt_diagnostics rs)
  <-> exists text, a = Stderr text /\ In (Got_error text) rs.
Proof.
  unfold getopt_diagnostics. rewrite in_flat_map. split.
  - intros (r & Hr & Ha). destruct r as [ch|i|text]; simpl in Ha; try tauto.
    destruct Ha as [<-|[]]. now exists text.
  - intros (text & -> & Hr). exists (Got_error text). simpl. auto.
Qed.


(** ** The loop: closing, composing, counting *)

Section LoopFacts.

Variable V : Z.
Variable env : list string.

Lemma event_loop_until_close l :
  forall st, event_loop V env st l = event_loop V env st (until_close l).
Proof.
  induction l as [|a rest IH]; intros st; [reflexivity|].
  simpl until_close. destruct (wait_result a) as [evt|] eqn:E.
  - rewrite !(event_loop_event _ _ _ _ _ _ E).
    unfold loop_trace, loop_state, loop_status. now rewrite <- !IH.
  - now rewrite !(event_loop_null _ _ _ _ _ E).
Qed.

Lemma until_close_null xs :
  forall a ys,
    wait_result a = None ->
    until_close (xs ++ a :: ys) = until_close (xs ++ [a]).
Proof.
  induction xs as [|x xs IH]; intros a ys H; simpl.
  - now rewrite H.
  - destruct (wait_result x); [now rewrite (IH a ys H)|reflexivity].
Qed.

Lemma received_until_close l :
  forall st,
    received (loop_trace V env st l)
    = List.length
        (filter (fun a => match wait_result a with
                          | Some _ => true
                          | None => false
                          end)
           (until_close l)).
Proof.
  induction l as [|a rest IH]; intros st.
  - unfold loop_trace. simpl. apply received_log.
  - simpl until_close. destruct (wait_result a) as [evt|] eqn:E.
    + rewrite (received_loop_event _ _ _ _ _ _ E). simpl. rewrite E. simpl.
      now rewrite IH.
    + unfold loop_trace. rewrite (event_loop_null _ _ _ _ _ E). cbn [fst].
      rewrite received_app, received_log. simpl. now rewrite E.
Qed.

(** A launch moves the clock variable up by at least 2 and the timestamp
    variable by at least 1. *)
Lemma dispatch_advance st evt now lw :
  last_time st
  + 2 * Z.of_nat (invocations (fst (dispatch V env st evt now lw)))
  <= last_time (snd (dispatch V env st evt now lw))
  /\ last_timestamp st
     + Z.of_nat (invocations (fst (dispatch V env st evt now lw)))
     <= last_timestamp (snd (dispatch V env st evt now lw)).
Proof.
  unfold dispatch. destruct (screen_change_flag evt); [|simpl; lia].
  rewrite debounce_invocations. unfold debounce.
  destruct (trigger st (timestamp evt) now) eqn:E; [|simpl; lia].
  apply trigger_spec in E. simpl. lia.
Qed.

Lemma loop_advance l :
  forall st,
    last_time st + 2 * Z.of_nat (invocations (loop_trace V env st l))
    <= last_time (loop_state V env st l)
    /\ last_timestamp st + Z.of_nat (invocations (loop_trace V env st l))
       <= last_timestamp (loop_state V env st l).
Proof.
  induction l as [|a rest IH]; intros st.
  - unfold loop_trace, loop_state. simpl. rewrite invocations_log. simpl. lia.
  - destruct (wait_result a) as [evt|] eqn:E.
    + rewrite (invocations_loop_event _ _ _ _ _ _ E),
        (loop_state_event _ _ _ _ _ _ E).
      pose proof (dispatch_advance st evt (clock a) (launch a)) as D.
      pose proof (IH (snd (dispatch V env st evt (clock a) (launch a)))) as I.
      lia.
    + unfold loop_trace, loop_state. rewrite (event_loop_null _ _ _ _ _ E).
      cbn [fst snd]. rewrite invocations_app, invocations_log. simpl. lia.
Qed.

Lemma loop_no_launch_same_state l :
  forall st,
    invocations (loop_trace V env st l) = 0%nat ->
    loop_state V env st l = st.
Proof.
  induction l as [|a rest IH]; intros st H.
  - reflexivity.
  - destruct (wait_result a) as [evt|] eqn:E.
    + rewrite (invocations_loop_event _ _ _ _ _ _ E) in H.
      rewrite (loop_state_event _ _ _ _ _ _ E).
      assert (D : dispatch V env st evt (clock a) (launch a) = ([], st)).
      { unfold dispatch in *. destruct (screen_change_flag evt); [|reflexivity].
        rewrite debounce_invocations in H.
        destruct (trigger st (timestamp evt) (clock a)) eqn:T;
          [simpl in H; discriminate H|now apply debounce_quiet]. }
      rewrite D in *. cbn [fst snd] in *. now apply IH.
    + unfold loop_state. now rewrite (event_loop_null _ _ _ _ _ E).
Qed.

Lemma invocations_le_notifications l :
  forall st,
    (invocations (loop_trace V env st l)
     <= List.length (filter is_notification (until_close l)))%nat.
Proof.
  induction l as [|a rest IH]; intros st.
  - unfold loop_trace. simpl. rewrite invocations_log. lia.
  - simpl until_close. destruct (wait_result a) as [evt|] eqn:E.
    + rewrite (invocations_loop_event _ _ _ _ _ _ E). simpl filter.
      unfold is_notification at 1. rewrite E.
      specialize (IH (snd (dispatch V env st evt (clock a) (launch a)))).
      unfold dispatch at 1. destruct (screen_change_flag evt).
      * rewrite debounce_invocations.
        destruct (trigger st (timestamp evt) (clock a)); simpl; lia.
      * simpl. lia.
    + unfold loop_trace. rewrite (event_loop_null _ _ _ _ _ E). cbn [fst].
      rewrite invocations_app, invocations_log. simpl.
      unfold is_notification. rewrite E. unfold invocations. simpl. lia.
Qed.

End LoopFacts.

(** X4. The loop ends at the first NULL: whatever follows it in the inputs
    is never looked at.  A run is the run over the inputs up to the first
    NULL, and the events it receives are the inputs before that NULL. *)
Theorem X4_nothing_after_close :
  forall V env st inputs,
    event_loop V env st inputs = event_loop V env st (until_close inputs)
    /\ received (loop_trace V env st inputs)
       = List.length
           (filter (fun a => match wait_result a with
                             | Some _ => true
                             | None => false
                             end)
              (until_close inputs))
    /\ (forall xs a ys,
           inputs = xs ++ a :: ys ->
           wait_result a = None ->
           event_loop V env st inputs = event_loop V env st (xs ++ [a])
           /\ loop_status V env st inputs = Closed).
Proof.
  intros V env st inputs. split; [apply event_loop_until_close|].
  split; [apply received_until_close|].
  intros xs a ys -> H. split.
  - rewrite event_loop_until_close, (until_close_null xs a ys H).
    now rewrite <- event_loop_until_close.
  - rewrite loop_status_closes.
    assert (C : channel_closes (xs ++ a :: ys) = true).
    { unfold channel_closes. rewrite existsb_app. simpl. rewrite H.
      apply orb_true_r. }
    now rewrite C.
Qed.

(** X5. Runs compose.  If the channel does not close during [xs], the run
    over [xs ++ ys] reaches the state, and ends the way, of the run over [ys]
    started in the state the run over [xs] reached, and its launches and
    received events are those of the two runs together. *)
Theorem X5_runs_compose :
  forall V env st xs ys,
    channel_closes xs = false ->
    loop_state V env st (xs ++ ys)
    = loop_state V env (loop_state V env st xs) ys
    /\ loop_status V env st (xs ++ ys)
       = loop_status V env (loop_state V env st xs) ys
    /\ invocations (loop_trace V env st (xs ++ ys))
       = (invocations (loop_trace V env st xs)
          + invocations (loop_trace V env (loop_state V env st xs) ys))%nat
    /\ received (loop_trace V env st (xs ++ ys))
       = (received (loop_trace V env st xs)
          + received (loop_trace V env (loop_state V env st xs) ys))%nat.
Proof.
  intros V env st xs ys. revert st.
  induction xs as [|a rest IH]; intros st H.
  - change (loop_state V env st []) with st.
    change (loop_trace V env st []) with (map Stdout (ar_log V msg_waiting)).
    simpl app. rewrite invocations_log, received_log. now repeat split.
  - simpl in H. destruct (wait_result a) as [evt|] eqn:E; [|discriminate].
    simpl app.
    rewrite !(loop_state_event _ _ _ _ _ _ E),
      !(loop_status_event _ _ _ _ _ _ E),
      !(invocations_loop_event _ _ _ _ _ _ E),
      !(received_loop_event _ _ _ _ _ _ E).
    destruct (IH (snd (dispatch V env st evt (clock a) (launch a))) H)
      as (I1 & I2 & I3 & I4).
    rewrite I1, I2, I3, I4. repeat split; lia.
Qed.

Lemma X5_runs_compose_witness :
  loop_state 0 [] {| last_timestamp := 0; last_time := 0 |}
    ([notification 100 10; other_event 7 11] ++ [notification 150 12])
  = loop_state 0 []
      (loop_state 0 [] {| last_timestamp := 0; last_time := 0 |}
         [notification 100 10; other_event 7 11])
      [notification 150 12].
Proof.
  apply (X5_runs_compose 0 [] {| last_timestamp := 0; last_time := 0 |}
           [notification 100 10; other_event 7 11] [notification 150 12]).
  reflexivity.
Defined.

(** X6. Launches are rate-limited by the clock and by the timestamps.  Over
    any run, [last_time] grows by at least 2 and [last_timestamp] by at
    least 1 for every launch; so a run whose clock readings stay within [d]
    seconds of the initial [last_time] launches at most [d / 2] times. *)
Theorem X6_launch_rate :
  forall V env st inputs,
    last_time st
    + 2 * Z.of_nat (invocations (loop_trace V env st inputs))
    <= last_time (loop_state V env st inputs)
    /\ last_timestamp st
       + Z.of_nat (invocations (loop_trace V env st inputs))
       <= last_timestamp (loop_state V env st inputs)
    /\ (forall d,
           Forall (fun a => clock a <= last_time st + d) inputs ->
           0 <= d ->
           2 * Z.of_nat (invocations (loop_trace V env st inputs)) <= d).
Proof.
  intros V env st inputs.
  destruct (loop_advance V env inputs st) as [A1 A2].
  split; [exact A1|]. split; [exact A2|].
  intros d Hd Hd0.
  assert (B : forall l s,
             Forall (fun a => clock a <= last_time st + d) l ->
             last_time s <= last_time st + d ->
             last_time (loop_state V env s l) <= last_time st + d).
  { induction l as [|a rest IH]; intros s Hl Hs; [exact Hs|].
    inversion Hl as [|? ? Ha Hrest]; subst.
    destruct (wait_result a) as [evt|] eqn:E.
    - rewrite (loop_state_event _ _ _ _ _ _ E). apply IH; [exact Hrest|].
      unfold dispatch, debounce.
      destruct (screen_change_flag evt); [|exact Hs].
      destruct (trigger s (timestamp evt) (clock a)); [exact Ha|exact Hs].
    - unfold loop_state. now rewrite (event_loop_null _ _ _ _ _ E). }
  specialize (B inputs st Hd). lia.
Qed.

(** X7. The two variables change exactly when something is launched: a run
    without a launch ends in the state it started in, and a run with a
    launch ends with a larger [last_time] and a larger [last_timestamp]. *)
Theorem X7_state_changes_iff_launch :
  forall V env st inputs,
    (invocations (loop_trace V env st inputs) = 0%nat
     <-> loop_state V env st inputs = st)
    /\ (invocations (loop_trace V env st inputs) <> 0%nat ->
        last_time st < last_time (loop_state V env st inputs)
        /\ last_timestamp st < last_timestamp (loop_state V env st inputs)).
Proof.
  intros V env st inputs.
  destruct (loop_advance V env inputs st) as [A1 A2].
  split; [split|].
  - apply loop_no_launch_same_state.
  - intros H. rewrite H in A1. lia.
  - intros H. lia.
Qed.

(** X8. There are never more launches than notifications: the launches of a
    run are at most the events with the screen-change flag among the inputs
    up to the first NULL, which are at most the events received. *)
Theorem X8_launches_bounded_by_notifications :
  forall V env st inputs,
    (invocations (loop_trace V env st inputs)
     <= List.length (filter is_notification (until_close inputs)))%nat
    /\ (List.length (filter is_notification (until_close inputs))
        <= received (loop_trace V env st inputs))%nat
    /\ (received (loop_trace V env st inputs) <= List.length inputs)%nat.
Proof.
  intros V env st inputs.
  split; [apply invocations_le_notifications|].
  rewrite received_until_close. split.
  - induction (until_close inputs) as [|a l IH]; [simpl; lia|].
    simpl. unfold is_notification at 1.
    destruct (wait_result a) as [evt|];
      [destruct (screen_change_flag evt)|]; simpl; lia.
  - etransitivity; [apply filter_length_le|].
    clear st. induction inputs as [|a l IH]; [simpl; lia|].
    simpl. destruct (wait_result a); simpl; lia.
Qed.

(** ** Logging *)

Lemma filter_not_stdout_log (l : list string) :
  filter (fun a => negb (is_stdout a)) (map Stdout l) = [].
Proof.
  now apply filter_log.
Qed.

Lemma ar_log_quiet (text : string) : ar_log 0 text = [].
Proof. reflexivity. Qed.

(** X9. Logging changes nothing else.  For every value of [VERBOSE], the
    trace of a run with its log lines removed is the trace of the same run
    with [VERBOSE] = 0, which contains no output at all, and the state
    reached and the way the loop ends do not depend on [VERBOSE]. *)
Theorem X9_logging_is_inert :
  forall V env st inputs,
    filter (fun a => negb (is_stdout a)) (loop_trace V env st inputs)
    = loop_trace 0 env st inputs
    /\ filter is_stdout (loop_trace 0 env st inputs) = []
    /\ loop_state V env st inputs = loop_state 0 env st inputs
    /\ loop_status V env st inputs = loop_status 0 env st inputs.
Proof.
  intros V env st inputs. revert st.
  assert (D : forall st evt now lw,
             snd (dispatch V env st evt now lw)
             = snd (dispatch 0 env st evt now lw)
             /\ filter (fun a => negb (is_stdout a))
                  (fst (dispatch V env st evt now lw))
                = fst (dispatch 0 env st evt now lw)
             /\ filter is_stdout (fst (dispatch 0 env st evt now lw)) = []).
  { intros st evt now lw. unfold dispatch, debounce.
    destruct (screen_change_flag evt); [|now repeat split].
    destruct (trigger st (timestamp evt) now); [|now repeat split].
    cbn [fst snd]. rewrite ?filter_app, ?filter_not_stdout_log, ?ar_log_quiet.
    now repeat split. }
  induction inputs as [|a rest IH]; intros st.
  - unfold loop_trace, loop_state, loop_status. simpl.
    now rewrite ?filter_not_stdout_log, ?ar_log_quiet.
  - destruct (wait_result a) as [evt|] eqn:E.
    + rewrite !(loop_trace_event _ _ _ _ _ _ E),
        !(loop_state_event _ _ _ _ _ _ E), !(loop_status_event _ _ _ _ _ _ E).
      destruct (D st evt (clock a) (launch a)) as (D1 & D2 & D3).
      rewrite <- D1.
      destruct (IH (snd (dispatch V env st evt (clock a) (launch a))))
        as (I1 & I2 & I3 & I4).
      rewrite !filter_app, filter_not_stdout_log, D2, I1, D3, I2, I3, I4.
      rewrite ?ar_log_quiet. now repeat split.
    + unfold loop_trace, loop_state, loop_status.
      rewrite !(event_loop_null _ _ _ _ _ E). cbn [fst snd].
      rewrite ?filter_app, ?filter_not_stdout_log, ?ar_log_quiet.
      now repeat split.
Qed.

Lemma loop_trace_quiet env l :
  forall st, filter is_stdout (loop_trace 0 env st l) = [].
Proof.
  induction l as [|a rest IH]; intros st; [reflexivity|].
  destruct (wait_result a) as [evt|] eqn:E.
  - rewrite (loop_trace_event _ _ _ _ _ _ E), !filter_app, IH.
    unfold dispatch, debounce.
    destruct (screen_change_flag evt); [|reflexivity].
    now destruct (trigger st (timestamp evt) (clock a)).
  - unfold loop_trace. now rewrite (event_loop_null _ _ _ _ _ E).
Qed.

Lemma daemonize_block_no_text o ok p :
  filter is_stdout (fst (daemonize_block o ok p)) = []
  /\ forall text, ~ In (Stderr text) (fst (daemonize_block o ok p)).
Proof.
  unfold daemonize_block.
  destruct ((daemonize o =? 1) && negb (VERBOSE o =? 1)); simpl;
    (split; [reflexivity|intros text H; intuition discriminate]).
Qed.

Lemma loop_trace_no_stderr V env l st text :
  ~ In (Stderr text) (loop_trace V env st l).
Proof.
  intros H.
  assert (F : In (Stderr text)
                (filter (fun a => match a with Stderr _ => true | _ => false end)
                   (loop_trace V env st l))).
  { apply filter_In. now split. }
  rewrite loop_trace_filter_none in F by reflexivity. exact F.
Qed.

(** X10. Without --verbose, and unless help or version is asked for, [main]
    writes nothing on standard output, however long it runs.  What is
    written on standard error is nothing but the diagnostics of
    [getopt_long] for the arguments it rejected and, when the connection has
    failed, the connection error. *)
Theorem X10_silent_without_verbose :
  forall w,
    ~ In (Got_long 3) (getopt_results w) ->
    help (parse_options (getopt_results w)) <> 1 ->
    version (parse_options (getopt_results w)) <> 1 ->
    filter is_stdout (out_trace (main w)) = []
    /\ (forall text,
           In (Stderr text) (out_trace (main w)) ->
           In (Got_error text) (getopt_results w)
           \/ (text = msg_connection_error /\ conn_error w <> 0)).
Proof.
  intros w Nb Nh Nv.
  destruct (parse_options_spec (getopt_results w))
    as (_ & _ & _ & (Hb & Hb')).
  assert (B : VERBOSE (parse_options (getopt_results w)) = 0) by tauto.
  assert (G : filter is_stdout (getopt_diagnostics (getopt_results w)) = []).
  { now apply getopt_diagnostics_filter. }
  assert (G' : forall text,
             In (Stderr text) (getopt_diagnostics (getopt_results w)) ->
             In (Got_error text) (getopt_results w)).
  { intros text H. apply in_getopt_diagnostics in H.
    destruct H as (t & Ht & Hin). now injection Ht as <-. }
  unfold main. cbv zeta. apply Z.eqb_neq in Nh, Nv. rewrite Nh, Nv, B.
  destruct (daemonize_block_no_text (parse_options (getopt_results w))
              (daemon_ok w) (proc0 w)) as [Q1 Q2].
  destruct (daemonize_block (parse_options (getopt_results w))
              (daemon_ok w) (proc0 w)) as [td p].
  cbn [fst] in Q1, Q2.
  destruct (conn_error w =? 0) eqn:Ec.
  - pose proof (loop_trace_quiet (environ w) (arrivals w)
                  {| last_timestamp := 0; last_time := start_time w |}) as L.
    pose proof (fun text =>
                  loop_trace_no_stderr 0 (environ w) (arrivals w)
                    {| last_timestamp := 0; last_time := start_time w |} text)
      as L'.
    unfold loop_trace in L, L'.
    destruct (event_loop 0 (environ w)
                {| last_timestamp := 0; last_time := start_time w |}
                (arrivals w)) as [[tl st] e].
    cbn [fst out_trace] in *. split.
    + rewrite !filter_app, G, Q1, L. reflexivity.
    + intros text H.
      rewrite !in_app_iff in H. simpl in H.
      destruct H as [H|[H|[[H|[]]|[[]|[[H|[H|[]]]|H]]]]];
        try discriminate H;
        [left; now apply G'|exfalso; now apply (Q2 text)
        |exfalso; now apply (L' text)].
  - cbn [out_trace]. split.
    + rewrite !filter_app, G, Q1. reflexivity.
    + intros text H. rewrite !in_app_iff in H. simpl in H.
      destruct H as [H|[H|[H|[H|[]]]]]; try discriminate H;
        [left; now apply G'|exfalso; now apply (Q2 text)|].
      injection H as <-. right. split; [reflexivity|]. now apply Z.eqb_neq.
Qed.

Lemma X10_silent_without_verbose_witness :
  filter is_stdout
    (out_trace (main (example_world [Got_short "d"] 0 0
                        [notification 100 10; channel_closed]))) = [].
Proof.
  apply (X10_silent_without_verbose
           (example_world [Got_short "d"] 0 0
              [notification 100 10; channel_closed])).
  - simpl. intros [H|[]]. discriminate H.
  - simpl. lia.
  - simpl. lia.
Defined.

(** X11. Nothing is launched in the second after start-up.  [last_time]
    starts at the clock reading taken before the loop, so if every input is
    read on the clock at most one second after that reading, no run of
    [main] launches anything, whatever the timestamps are. *)
Theorem X11_startup_second_is_quiet :
  forall w,
    within_second (start_time w) (arrivals w) = true ->
    invocations (out_trace (main w)) = 0%nat
    /\ (out_state (main w) = None
        \/ out_state (main w)
           = Some {| last_timestamp := 0; last_time := start_time w |}).
Proof.
  intros w H. unfold main. cbv zeta.
  destruct (getopt_diagnostics_quiet (getopt_results w)) as (G1 & _ & _).
  destruct (help (parse_options (getopt_results w)) =? 1);
    [cbn [out_trace out_state]; rewrite invocations_app, G1;
     split; [reflexivity|now left]|].
  destruct (version (parse_options (getopt_results w)) =? 1);
    [cbn [out_trace out_state]; rewrite invocations_app, G1;
     split; [reflexivity|now left]|].
  destruct (daemonize_block_quiet (parse_options (getopt_results w))
              (daemon_ok w) (proc0 w)) as (Q1 & _ & _).
  destruct (daemonize_block (parse_options (getopt_results w))
              (daemon_ok w) (proc0 w)) as [td p].
  cbn [fst] in Q1.
  destruct (conn_error w =? 0).
  - destruct (within_second_quiet
                (VERBOSE (parse_options (getopt_results w))) (environ w)
                (arrivals w)
                {| last_timestamp := 0; last_time := start_time w |} H)
      as [W1 W2].
    unfold loop_trace in W1. unfold loop_state in W2.
    destruct (event_loop (VERBOSE (parse_options (getopt_results w)))
                (environ w)
                {| last_timestamp := 0; last_time := start_time w |}
                (arrivals w)) as [[tl st] e].
    cbn [fst snd out_trace out_state] in *. split.
    + rewrite !invocations_app, G1, Q1, invocations_log, W1. reflexivity.
    + right. now rewrite W2.
  - cbn [out_trace out_state]. split; [|now left].
    rewrite !invocations_app, G1, Q1. reflexivity.
Qed.

Lemma X11_startup_second_is_quiet_witness :
  invocations
    (out_trace (main (example_world [] 0 1000
                        [notification 100 1000; notification 200 1001])))
  = 0%nat.
Proof.
  apply (X11_startup_second_is_quiet
           (example_world [] 0 1000
              [notification 100 1000; notification 200 1001])).
  reflexivity.
Defined.

(** ** Signals *)

Lemma signal_eqb_refl sig : signal_eqb sig sig = true.
Proof. now destruct sig. Qed.

Lemma deliver_handler t sig fuel :
  t sig = sigterm_handler ->
  deliver (S fuel) t sig = Some (Killed_by sig, set_disposition t sig SIG_DFL).
Proof.
  intros H. simpl. rewrite H. simpl.
  assert (E : set_disposition t sig SIG_DFL sig = SIG_DFL).
  { unfold set_disposition. now rewrite signal_eqb_refl. }
  destruct fuel; simpl; now rewrite E.
Qed.

(** X12. [sigterm_handler] hands the signal over to its default action.
    Under any dispositions in which a signal is bound to the handler, the
    signal ends the process as that very signal would by default: the
    handler resets the disposition of the signal, of no other, and sends the
    signal again, and the process does not go on. *)
Theorem X12_handler_reraises :
  forall t sig fuel,
    t sig = sigterm_handler ->
    deliver (S fuel) t sig
    = Some (Killed_by sig, set_disposition t sig SIG_DFL)
    /\ set_disposition t sig SIG_DFL sig = SIG_DFL
    /\ (forall other,
           other <> sig -> set_disposition t sig SIG_DFL other = t other).
Proof.
  intros t sig fuel H. repeat split.
  - now apply deliver_handler.
  - unfold set_disposition. now rewrite signal_eqb_refl.
  - intros other Ho. unfold set_disposition.
    destruct other, sig; simpl; congruence.
Qed.

Lemma X12_handler_reraises_witness :
  deliver 1
    (set_disposition (fun _ => SIG_DFL) SIGTERM sigterm_handler) SIGTERM
  = Some (Killed_by SIGTERM,
          set_disposition
            (set_disposition (fun _ => SIG_DFL) SIGTERM sigterm_handler)
            SIGTERM SIG_DFL).
Proof.
  apply (X12_handler_reraises
           (set_disposition (fun _ => SIG_DFL) SIGTERM sigterm_handler)
           SIGTERM 0).
  reflexivity.
Defined.

(** X13. What the daemonize block does to the signals.  When the block
    runs, whether or not [daemon] then succeeds, SIGINT, SIGTERM and SIGQUIT
    are bound to [sigterm_handler], so each of them ends the process as
    that signal, and SIGHUP is ignored.  When the block is skipped, as it is
    with --verbose, every disposition is what it was at start-up, that of
    SIGHUP included. *)
Theorem X13_signals_after_daemonize_block :
  forall o ok p t0 fuel,
    (daemonize o = 1 /\ VERBOSE o <> 1 ->
     (forall sig,
         sig <> SIGHUP ->
         dispositions (fst (daemonize_block o ok p)) t0 sig = sigterm_handler
         /\ option_map fst
              (deliver (S fuel)
                 (dispositions (fst (daemonize_block o ok p)) t0) sig)
            = Some (Killed_by sig))
     /\ dispositions (fst (daemonize_block o ok p)) t0 SIGHUP = SIG_IGN
     /\ option_map fst
          (deliver fuel (dispositions (fst (daemonize_block o ok p)) t0)
             SIGHUP)
        = Some Ignored)
    /\ (~ (daemonize o = 1 /\ VERBOSE o <> 1) ->
        forall sig,
          dispositions (fst (daemonize_block o ok p)) t0 sig = t0 sig).
Proof.
  intros o ok p t0 fuel. unfold daemonize_block.
  destruct (daemonize o =? 1) eqn:Ed;
    [apply Z.eqb_eq in Ed|apply Z.eqb_neq in Ed];
    (destruct (VERBOSE o =? 1) eqn:Eb;
     [apply Z.eqb_eq in Eb|apply Z.eqb_neq in Eb]);
    simpl andb; cbv iota; cbn [fst]; split; try tauto; try reflexivity.
  - intros _. split; [|split].
    + intros sig Hs.
      assert (D : dispositions
                    [Sigaction SIGINT sigterm_handler;
                     Sigaction SIGTERM sigterm_handler;
                     Sigaction SIGQUIT sigterm_handler;
                     Sigaction SIGHUP SIG_IGN; Daemon 0 0] t0 sig
                  = sigterm_handler).
      { destruct sig; try reflexivity. congruence. }
      split; [exact D|].
      now rewrite (deliver_handler _ _ _ D).
    + reflexivity.
    + destruct fuel; reflexivity.
Qed.

(** ** What is executed, and what is stored *)

Lemma child_calls_app t1 t2 :
  child_calls (t1 ++ t2) = child_calls t1 ++ child_calls t2.
Proof. apply flat_map_app. Qed.

Lemma launcher_calls_app t1 t2 :
  launcher_calls (t1 ++ t2) = launcher_calls t1 ++ launcher_calls t2.
Proof. apply flat_map_app. Qed.

Lemma child_calls_log l : child_calls (map Stdout l) = [].
Proof. induction l as [|s l IH]; [reflexivity|exact IH]. Qed.

Lemma launcher_calls_log l : launcher_calls (map Stdout l) = [].
Proof. induction l as [|s l IH]; [reflexivity|exact IH]. Qed.

(** The calls of one iteration. *)
Lemma dispatch_calls V env st evt now lw :
  launcher_calls (fst (dispatch V env st evt now lw))
  = (if screen_change_flag evt && trigger st (timestamp evt) now
     then [Waitpid (pid_of (fork_ret lw)) 0 0] else [])
  /\ child_calls (fst (dispatch V env st evt now lw))
     = (if screen_change_flag evt && trigger st (timestamp evt) now
        then match fork_ret lw with
             | Fork_pid _ => [Execve "/usr/bin/autorandr" argv env]
             | Fork_failed => []
             end
        else [])
  /\ invocations (fst (dispatch V env st evt now lw))
     = (if screen_change_flag evt && trigger st (timestamp evt) now
        then 1%nat else 0%nat).
Proof.
  unfold dispatch. destruct (screen_change_flag evt); [|now repeat split].
  rewrite debounce_invocations. unfold debounce.
  destruct (trigger st (timestamp evt) now); [|now repeat split].
  cbn [fst andb]. rewrite launcher_calls_app, child_calls_app,
    launcher_calls_log, child_calls_log.
  unfold ar_launch, ar_launch_body. simpl.
  destruct (fork_ret lw); simpl; now repeat split.
Qed.

(** X14. What a run executes.  Over any run of the loop, every system call
    made in a child is [execve] of /usr/bin/autorandr with the arguments
    --change --default default and the launcher's [environ]; the launcher
    itself only calls [waitpid] with options 0, once per launch, and never
    [execve].  There are at most as many children as launches (a launch
    whose [fork] fails has none), and exactly as many when every [fork]
    succeeds. *)
Theorem X14_only_the_fixed_command :
  forall V env st inputs,
    Forall (fun c => c = Execve "/usr/bin/autorandr"
                           ["/usr/bin/autorandr"%string; "--change"%string;
                            "--default"%string; "default"%string] env)
      (child_calls (loop_trace V env st inputs))
    /\ Forall (fun c => exists pid, c = Waitpid pid 0 0)
         (launcher_calls (loop_trace V env st inputs))
    /\ List.length (launcher_calls (loop_trace V env st inputs))
       = invocations (loop_trace V env st inputs)
    /\ (List.length (child_calls (loop_trace V env st inputs))
        <= invocations (loop_trace V env st inputs))%nat
    /\ (forks_succeed inputs = true ->
        List.length (child_calls (loop_trace V env st inputs))
        = invocations (loop_trace V env st inputs)).
Proof.
  intros V env st inputs. revert st.
  induction inputs as [|a rest IH]; intros st.
  - unfold loop_trace. simpl.
    rewrite child_calls_log, launcher_calls_log, invocations_log.
    repeat split; auto.
  - destruct (wait_result a) as [evt|] eqn:E.
    + rewrite (invocations_loop_event _ _ _ _ _ _ E),
        (loop_trace_event _ _ _ _ _ _ E).
      rewrite !child_calls_app, !launcher_calls_app, child_calls_log,
        launcher_calls_log. simpl app.
      destruct (dispatch_calls V env st evt (clock a) (launch a))
        as (D1 & D2 & D3).
      destruct (IH (snd (dispatch V env st evt (clock a) (launch a))))
        as (I1 & I2 & I3 & I4 & I5).
      rewrite D1, D2, D3, !length_app, I3.
      destruct (screen_change_flag evt && trigger st (timestamp evt) (clock a)).
      * repeat split.
        -- apply Forall_app. split; [|exact I1].
           destruct (fork_ret (launch a)); repeat constructor.
        -- apply Forall_app. split; [|exact I2].
           repeat constructor. now exists (pid_of (fork_ret (launch a))).
        -- destruct (fork_ret (launch a)); simpl; lia.
        -- simpl. intros H. apply andb_true_iff in H. destruct H as [H1 H2].
           specialize (I5 H2). destruct (fork_ret (launch a)); simpl;
             [discriminate H1|lia].
      * repeat split; auto. simpl. intros H. apply andb_true_iff in H.
        now apply I5.
    + unfold loop_trace. rewrite (event_loop_null _ _ _ _ _ E). cbn [fst].
      rewrite child_calls_app, launcher_calls_app, child_calls_log,
        launcher_calls_log, invocations_app, invocations_log.
      simpl. repeat split; auto.
Qed.

(** X15. The loop never makes up a state.  The state a run ends in is the
    state it started in, or it is the timestamp and the clock reading of one
    of the notifications among the inputs up to the first NULL, taken
    together from that one notification. *)
Theorem X15_state_comes_from_a_notification :
  forall V env st inputs,
    loop_state V env st inputs = st
    \/ exists a evt,
         In a (until_close inputs)
         /\ wait_result a = Some evt
         /\ screen_change_flag evt = true
         /\ loop_state V env st inputs
            = {| last_timestamp := timestamp evt; last_time := clock a |}.
Proof.
  intros V env st inputs. revert st.
  induction inputs as [|a rest IH]; intros st; [now left|].
  simpl until_close. destruct (wait_result a) as [evt|] eqn:E.
  - rewrite (loop_state_event _ _ _ _ _ _ E).
    destruct (IH (snd (dispatch V env st evt (clock a) (launch a))))
      as [H|(b & e & Hin & Hb & Hf & Hs)].
    + rewrite H. unfold dispatch, debounce.
      destruct (screen_change_flag evt) eqn:F; [|now left].
      destruct (trigger st (timestamp evt) (clock a)); [|now left].
      right. exists a, evt. simpl. auto.
    + right. exists b, e. simpl. auto.
  - left. unfold loop_state. now rewrite (event_loop_null _ _ _ _ _ E).
Qed.

(** ** Inputs that come too early or too late *)

Lemma cannot_trigger_dispatch V env st a evt :
  wait_result a = Some evt ->
  cannot_trigger st a = true ->
  dispatch V env st evt (clock a) (launch a) = ([], st).
Proof.
  intros E H. unfold cannot_trigger in H. rewrite E in H.
  unfold dispatch. destruct (screen_change_flag evt); [|reflexivity].
  simpl in H. apply debounce_quiet. unfold trigger.
  apply orb_true_iff in H. destruct H as [H|H]; apply Z.leb_le in H.
  - apply andb_false_iff. left. apply Z.ltb_ge. exact H.
  - apply andb_false_iff. right. apply Z.ltb_ge. lia.
Qed.

(** What cannot trigger now cannot trigger later either. *)
Lemma cannot_trigger_later st st' a :
  last_timestamp st <= last_timestamp st' ->
  last_time st <= last_time st' ->
  cannot_trigger st a = true -> cannot_trigger st' a = true.
Proof.
  intros H1 H2. unfold cannot_trigger.
  destruct (wait_result a) as [evt|]; [|auto].
  rewrite !orb_true_iff, !Z.leb_le. intros [[H|H]|H]; auto.
  - left. right. lia.
  - right. lia.
Qed.

(** X16. An input that cannot trigger against a state is lost for good, and
    harmlessly so.  Both variables only grow, so an event that has no flag,
    or is not newer than [last_timestamp], or is read within a second of
    [last_time], could not trigger at any later point of the run either:
    removing all such inputs from a run changes neither the state it
    reaches, nor the way it ends, nor its launches and stores. *)
Theorem X16_untriggerable_inputs_are_inert :
  forall V env st0 inputs st,
    last_timestamp st0 <= last_timestamp st ->
    last_time st0 <= last_time st ->
    loop_state V env st inputs
    = loop_state V env st
        (filter (fun a => negb (cannot_trigger st0 a)) inputs)
    /\ loop_status V env st inputs
       = loop_status V env st
           (filter (fun a => negb (cannot_trigger st0 a)) inputs)
    /\ filter is_effect (loop_trace V env st inputs)
       = filter is_effect
           (loop_trace V env st
              (filter (fun a => negb (cannot_trigger st0 a)) inputs)).
Proof.
  intros V env st0 inputs.
  induction inputs as [|a rest IH]; intros st H1 H2; [now repeat split|].
  simpl filter.
  destruct (wait_result a) as [evt|] eqn:E.
  - pose proof (dispatch_monotone V env st evt (clock a) (launch a)) as M1.
    pose proof (dispatch_advance V env st evt (clock a) (launch a)) as [M2 _].
    assert (M3 : last_time st
                 <= last_time (snd (dispatch V env st evt (clock a) (launch a))))
      by lia.
    destruct (IH (snd (dispatch V env st evt (clock a) (launch a))))
      as (I1 & I2 & I3); [lia|lia|].
    destruct (cannot_trigger st0 a) eqn:C; simpl negb; cbv iota.
    + pose proof (cannot_trigger_later st0 st a H1 H2 C) as C'.
      rewrite (loop_state_event _ _ _ _ _ _ E),
        (loop_status_event _ _ _ _ _ _ E), (loop_trace_event _ _ _ _ _ _ E),
        !effects_app.
      rewrite (cannot_trigger_dispatch V env st a evt E C') in *.
      cbn [fst snd] in *.
      rewrite (filter_log is_effect) by reflexivity. simpl.
      now rewrite I1, I2, I3.
    + rewrite !(loop_state_event _ _ _ _ _ _ E),
        !(loop_status_event _ _ _ _ _ _ E),
        !(loop_trace_event _ _ _ _ _ _ E), !effects_app.
      now rewrite I1, I2, I3.
  - assert (C : cannot_trigger st0 a = false).
    { unfold cannot_trigger. now rewrite E. }
    rewrite C. simpl negb. cbv iota.
    unfold loop_state, loop_status, loop_trace.
    now rewrite !(event_loop_null _ _ _ _ _ E).
Qed.

Lemma X16_untriggerable_inputs_are_inert_witness :
  loop_state 0 [] {| last_timestamp := 100; last_time := 10 |}
    [notification 50 500; notification 150 11; notification 200 20]
  = loop_state 0 [] {| last_timestamp := 100; last_time := 10 |}
      (filter
         (fun a =>
            negb (cannot_trigger {| last_timestamp := 100; last_time := 10 |}
                    a))
         [notification 50 500; notification 150 11; notification 200 20]).
Proof.
  apply (X16_untriggerable_inputs_are_inert 0 []
           {| last_timestamp := 100; last_time := 10 |}
           [notification 50 500; notification 150 11; notification 200 20]
           {| last_timestamp := 100; last_time := 10 |});
    simpl; lia.
Defined.

(** ** Further runs of [main] *)

(** An argument [getopt_long] rejects: its diagnostic goes to standard
    error, and the run goes on as without it. *)
Example run_rejected_argument :
  out_trace
    (main (example_world
             [Got_error ("autorandr_launcher: invalid option -- 'x'" ++ LF);
              Got_short "h"] 0 0 []))
  = [Stderr ("autorandr_launcher: invalid option -- 'x'" ++ LF);
     Stdout help_str].
Proof. reflexivity. Qed.

(** A server that has given RandR the first event code 88: its
    screen-change notification does not pass the test, and nothing is
    launched. *)
Example run_even_first_event :
  is_screen_change_notify 88 {| response_type := 88; timestamp := 500 |}
  = true
  /\ invocations
       (out_trace
          (main (example_world [] 0 0
                   [{| wait_result :=
                         Some {| response_type := 88; timestamp := 500 |};
                       clock := 10;
                       launch := {| fork_ret := Fork_pid 4242;
                                    exec := Exec_replaced 0 |} |}])))
     = 0%nat.
Proof. split; reflexivity. Qed.

(** A client message sent through SendEvent is taken for a notification. *)
Example run_client_message :
  is_screen_change_notify 89 {| response_type := 161; timestamp := 500 |}
  = false
  /\ invocations
       (out_trace
          (main (example_world [] 0 0
                   [{| wait_result :=
                         Some {| response_type := 161; timestamp := 500 |};
                       clock := 10;
                       launch := {| fork_ret := Fork_pid 4242;
                                    exec := Exec_replaced 0 |} |}])))
     = 1%nat.
Proof. split; reflexivity. Qed.
